(** * Snapshotter MCP server: request construction and response validation

    A shallow embedding of [main.py] (the tool handlers) and of
    [mcp_models.py] (the response schemas).

    - A decoded JSON body is a tree [JSON]; an object lists the items of the
      decoded dict in insertion order (a decoded dict has distinct keys).
    - The schemas are values of [ty], one per class of [mcp_models.py], and
      [validate] is the validator behind [model_validate]: lax mode, unknown
      keys ignored, every error collected together with its location.
    - A handler is a computation in [M]: it reads the upstream, appends each
      request it issues to a trace, and either returns or raises. *)

From Stdlib Require Import String Ascii List ZArith Bool Lia DecimalString.
From Stdlib Require Import Floats.SpecFloat.
From Stdlib Require Import DecimalPos DecimalZ Permutation.
Import ListNotations.

Set Warnings "-register-all".

Local Open Scope string_scope.
Local Open Scope list_scope.

(** ** Decoded JSON *)

(** What [response.json()] yields: [None], [bool], [int], [float], [str],
    [list], [dict]. A Python float is an IEEE binary64 number. *)
Inductive JSON : Type :=
| JNull
| JBool (b : bool)
| JInt (z : Z)
| JFloat (f : spec_float)
| JString (s : string)
| JArray (items : list JSON)
| JObject (items : list (string * JSON)).

(** [d.get(k)] on the items of a dict. *)
Fixpoint dict_get {A : Type} (k : string) (d : list (string * A)) : option A :=
  match d with
  | [] => None
  | (k', v) :: d' => if String.eqb k k' then Some v else dict_get k d'
  end.

Definition is_object (j : JSON) : bool :=
  match j with JObject _ => true | _ => false end.

(** ** Validated values *)

Inductive value : Type :=
| VNone
| VStr (s : string)
| VInt (z : Z)
| VFloat (f : spec_float)
| VAny (j : JSON)
| VList (xs : list value)
| VDict (kvs : list (string * value))
| VModel (fields : list (string * value)).

(** ** Field types and models *)

(** The annotations used in [mcp_models.py]: [str], [int], [float], [Any],
    [Optional[t]], [List[t]], [Dict[str, t]] and nested [BaseModel]
    classes. A field is its name, its default when it has one, and its
    annotation. *)
Inductive ty : Type :=
| Str
| Int
| Float
| Any
| Optional (t : ty)
| List_ (t : ty)
| Dict (t : ty)
| BaseModel (name : string) (fields : list (string * option value * ty)).

Definition Field : Type := (string * option value * ty)%type.

(** [name: t] *)
Definition required (name : string) (t : ty) : Field := (name, None, t).
(** [name: t = None] *)
Definition default_None (name : string) (t : ty) : Field := (name, Some VNone, t).

(** [class X(RootModel): root: t] validates the body itself against [t]. *)
Definition RootModel (root : ty) : ty := root.

Definition field_name (f : Field) : string := fst (fst f).
Definition field_default (f : Field) : option value := snd (fst f).
Definition field_type (f : Field) : ty := snd f.

Definition model_fields (t : ty) : list Field :=
  match t with BaseModel _ fs => fs | _ => [] end.

Definition is_required (f : Field) : bool :=
  match field_default f with None => true | Some _ => false end.

Definition required_fields (t : ty) : list string :=
  map field_name (filter is_required (model_fields t)).

(** ** Validation errors *)

(** An item of an error location: a field name or dict key, or a list
    index. *)
Inductive LocItem : Type :=
| Key (s : string)
| Index (n : nat).

Inductive ErrorType : Type :=
| missing
| string_type
| int_type
| int_parsing
| int_from_float
| int_parsing_size
| finite_number
| float_type
| float_parsing
| list_type
| dict_type
| model_type.

(** One line of a validation error: where, and what. *)
Definition LineError : Type := (list LocItem * ErrorType)%type.

Definition Validated (A : Type) : Type := (list LineError + A)%type.

Definition fail_here {A : Type} (e : ErrorType) : Validated A := inl [([], e)].

(** Errors raised below a field, key or index get that item in front of
    their location. *)
Definition at_loc (i : LocItem) (es : list LineError) : list LineError :=
  map (fun e => (i :: fst e, snd e)) es.

Definition under {A : Type} (i : LocItem) (r : Validated A) : Validated A :=
  match r with
  | inl es => inl (at_loc i es)
  | inr v => inr v
  end.

(** Validation does not stop at the first error: the errors of both parts
    are kept, in order. *)
Definition both {A B C : Type} (f : A -> B -> C)
    (ra : Validated A) (rb : Validated B) : Validated C :=
  match ra, rb with
  | inr a, inr b => inr (f a b)
  | inr _, inl es => inl es
  | inl es, inr _ => inl es
  | inl es1, inl es2 => inl (es1 ++ es2)
  end.

Definition accepted {A : Type} (r : Validated A) : bool :=
  match r with inr _ => true | inl _ => false end.

(** ** Scalars in lax mode *)

(** How the validator reads a number out of a string is its own business
    (surrounding blanks, signs, exponents, ...): the two readers are left
    open, and every statement below holds for each choice of them. *)
Class LaxStrings : Type := {
  str_as_int : string -> option Z;
  str_as_float : string -> option spec_float
}.

(** [float(z)]: round to nearest binary64. *)
Definition float_of_int (z : Z) : spec_float := binary_normalize 53 1024 z 0 false.

Definition is_finite (f : spec_float) : bool :=
  match f with
  | S754_zero _ | S754_finite _ _ _ => true
  | S754_infinity _ | S754_nan => false
  end.

(** The validator keeps an int read from a float in a signed 64-bit
    integer: the float must lie strictly between [-2^63] and [2^63]. *)
Definition int_from_float_in_range (z : Z) : Validated Z :=
  if ((- 2 ^ 63 <? z) && (z <? 2 ^ 63))%Z then inr z
  else fail_here int_parsing_size.

(** A float is read as an int when it is finite, has no fractional part
    and is in that range. *)
Definition float_as_int (f : spec_float) : Validated Z :=
  match f with
  | S754_zero _ => inr 0%Z
  | S754_finite s m e =>
      let sign := if s then (-1)%Z else 1%Z in
      match e with
      | Zneg p =>
          if Z.eqb (Z.modulo (Zpos m) (Z.pow 2 (Zpos p))) 0
          then int_from_float_in_range (sign * Z.div (Zpos m) (Z.pow 2 (Zpos p)))%Z
          else fail_here int_from_float
      | _ => int_from_float_in_range (sign * Zpos m * Z.pow 2 e)%Z
      end
  | S754_infinity _ | S754_nan => fail_here finite_number
  end.

Section Validation.

Context {L : LaxStrings}.

Definition validate_str (j : JSON) : Validated value :=
  match j with
  | JString s => inr (VStr s)
  | _ => fail_here string_type
  end.

Definition validate_int (j : JSON) : Validated value :=
  match j with
  | JInt z => inr (VInt z)
  | JBool b => inr (VInt (if b then 1 else 0)%Z)
  | JString s =>
      match str_as_int s with
      | Some z => inr (VInt z)
      | None => fail_here int_parsing
      end
  | JFloat f =>
      match float_as_int f with
      | inr z => inr (VInt z)
      | inl es => inl es
      end
  | _ => fail_here int_type
  end.

Definition validate_float (j : JSON) : Validated value :=
  match j with
  | JFloat f => inr (VFloat f)
  | JString s =>
      match str_as_float s with
      | Some f => inr (VFloat f)
      | None => fail_here float_parsing
      end
  | JInt z =>
      if is_finite (float_of_int z) then inr (VFloat (float_of_int z))
      else fail_here float_type
  | JBool b => inr (VFloat (float_of_int (if b then 1 else 0)%Z))
  | _ => fail_here float_type
  end.

(** ** Containers and models *)

Section Collecting.

Variable validate_item : JSON -> Validated value.

(** [List[t]]: every item, located by its index. *)
Fixpoint validate_items (i : nat) (js : list JSON) : Validated (list value) :=
  match js with
  | [] => inr []
  | j :: js' =>
      both cons (under (Index i) (validate_item j)) (validate_items (S i) js')
  end.

(** [Dict[str, t]]: every value, located by its key. *)
Fixpoint validate_entries (d : list (string * JSON)) : Validated (list (string * value)) :=
  match d with
  | [] => inr []
  | (k, j) :: d' =>
      both (fun v kvs => (k, v) :: kvs)
           (under (Key k) (validate_item j)) (validate_entries d')
  end.

End Collecting.

Section Fields.

Variable validate : ty -> JSON -> Validated value.

(** One declared field against the items of the body: a present key is
    validated, an absent one takes the default, and is [missing] when
    there is none. Keys that no field declares are never looked at. *)
Definition validate_field (d : list (string * JSON)) (f : Field) : Validated value :=
  match dict_get (field_name f) d with
  | Some j => under (Key (field_name f)) (validate (field_type f) j)
  | None =>
      match field_default f with
      | Some v => inr v
      | None => inl [([Key (field_name f)], missing)]
      end
  end.

(** All declared fields, in declaration order. *)
Fixpoint validate_fields (d : list (string * JSON)) (fs : list Field)
    : Validated (list (string * value)) :=
  match fs with
  | [] => inr []
  | f :: fs' =>
      both (fun v kvs => (field_name f, v) :: kvs)
           (validate_field d f) (validate_fields d fs')
  end.

End Fields.

Fixpoint validate (t : ty) (j : JSON) {struct t} : Validated value :=
  match t with
  | Str => validate_str j
  | Int => validate_int j
  | Float => validate_float j
  | Any => inr (VAny j)
  | Optional t' =>
      match j with
      | JNull => inr VNone
      | _ => validate t' j
      end
  | List_ t' =>
      match j with
      | JArray js =>
          match validate_items (validate t') 0 js with
          | inr xs => inr (VList xs)
          | inl es => inl es
          end
      | _ => fail_here list_type
      end
  | Dict t' =>
      match j with
      | JObject d =>
          match validate_entries (validate t') d with
          | inr kvs => inr (VDict kvs)
          | inl es => inl es
          end
      | _ => fail_here dict_type
      end
  | BaseModel _ fs =>
      match j with
      | JObject d =>
          match validate_fields validate d fs with
          | inr kvs => inr (VModel kvs)
          | inl es => inl es
          end
      | _ => fail_here model_type
      end
  end.

End Validation.

(** ** Bodies of the declared shape *)


(** ** The response models of [mcp_models.py] *)

Definition TokenMetadata : ty :=
  BaseModel "TokenMetadata"
    [ default_None "address" (Optional Str);
      required "name" Str;
      required "symbol" Str;
      required "decimals" Int ].

Definition Epoch : ty :=
  BaseModel "Epoch"
    [ required "begin" Int;
      required "end" Int;
      default_None "epochId" (Optional Int) ].

(** [_score: int] has a leading underscore: it is a private attribute of
    the class and not a field, so it takes no part in validation. *)
Definition Log : ty :=
  BaseModel "Log"
    [ required "address" Str;
      required "blockNumber" Int;
      required "data" Str;
      required "eventName" Str;
      required "filterName" Str;
      required "logIndex" Int;
      required "topics" (List_ Str);
      required "transactionHash" Str;
      required "transactionIndex" Int ].

Definition TradeData : ty :=
  BaseModel "TradeData"
    [ required "amount0" Float;
      required "amount1" Float;
      required "block_timestamp" Int;
      required "calculated_eth_price" Float;
      required "calculated_token0_amount" Float;
      required "calculated_token1_amount" Float;
      required "calculated_trade_amount_usd" Float;
      required "liquidity" Int;
      required "recipient" Str;
      required "sender" Str;
      required "sqrtPriceX96" Int;
      required "tick" Int ].

Definition Trade : ty :=
  BaseModel "Trade"
    [ required "tradeType" Str;
      required "log" Log;
      required "data" TradeData ].

Definition Pagination : ty :=
  BaseModel "Pagination"
    [ required "page" Int;
      required "size" Int;
      required "total" Int;
      required "total_pages" Int ].

Definition PoolMetadata : ty :=
  BaseModel "PoolMetadata"
    [ required "address" Str;
      required "token0" TokenMetadata;
      required "token1" TokenMetadata;
      required "fee" Int;
      required "factory" Str ].

Definition GetTokenPoolsResponse : ty :=
  BaseModel "GetTokenPoolsResponse"
    [ required "pools" (Dict PoolMetadata) ].

Definition GetEthPriceResponse : ty :=
  BaseModel "GetEthPriceResponse"
    [ required "epoch" Epoch;
      required "ethPrice" (Dict Float);
      required "previousSnapshots" (List_ Any) ].

Definition GetTokenBaseSnapshotsResponse : ty :=
  RootModel (Dict Any).

Definition GetBaseSnapshotResponse : ty :=
  BaseModel "GetBaseSnapshotResponse"
    [ required "address" Str;
      required "epoch" Epoch;
      required "timestamps" (Dict Int);
      required "token0" Str;
      required "token1" Str;
      required "token0Reserves" (Dict Float);
      required "token1Reserves" (Dict Float);
      required "token0ReservesUSD" (Dict Float);
      required "token1ReservesUSD" (Dict Float);
      required "token0Prices" (Dict Float);
      required "token1Prices" (Dict Float);
      required "token0PricesUSD" (Dict Float);
      required "token1PricesUSD" (Dict Float);
      required "totalTrade" Float;
      required "totalTradeMintBurn" Float;
      required "totalFee" Float;
      required "token0MintBurnVolume" Float;
      required "token1MintBurnVolume" Float;
      required "token0MintBurnVolumeUSD" Float;
      required "token1MintBurnVolumeUSD" Float;
      required "token0TradeVolume" Float;
      required "token1TradeVolume" Float;
      required "token0TradeVolumeUSD" Float;
      required "token1TradeVolumeUSD" Float;
      required "previousSnapshots" (List_ Any) ].

Definition GetTradesSnapshotResponse : ty :=
  BaseModel "GetTradesSnapshotResponse"
    [ required "address" Str;
      required "epoch" Epoch;
      required "trades" (List_ Trade);
      required "previousSnapshots" (List_ Any) ].

Definition GetAllTradesSnapshotResponse : ty :=
  BaseModel "GetAllTradesSnapshotResponse"
    [ required "epoch" Epoch;
      required "tradeData" (Dict GetTradesSnapshotResponse);
      required "previousSnapshots" (List_ Any) ].

Definition GetTokenPriceAllResponse : ty :=
  RootModel (Dict (Optional Float)).

Definition GetTradeVolumeAggResponse : ty :=
  BaseModel "GetTradeVolumeAggResponse"
    [ required "totalTradeVolume" Float;
      required "timeInterval" Int ].

Definition GetPoolTradesResponse : ty :=
  RootModel (List_ (Dict Any)).

Definition PriceSeriesEntry : ty :=
  BaseModel "PriceSeriesEntry"
    [ required "blockNumber" Int;
      required "price" Float;
      required "timestamp" Int ].

Definition GetTokenPriceSeriesResponse : ty :=
  BaseModel "GetTokenPriceSeriesResponse"
    [ required "priceSeries" (List_ PriceSeriesEntry);
      required "timeInterval" Int ].

Definition ActiveToken : ty :=
  BaseModel "ActiveToken"
    [ required "token_address" Str;
      required "frequency" Int;
      required "metadata" TokenMetadata ].

Definition GetDailyActiveTokensResponse : ty :=
  BaseModel "GetDailyActiveTokensResponse"
    [ required "active_tokens" (List_ ActiveToken);
      required "pagination" Pagination ].

Definition ActivePool : ty :=
  BaseModel "ActivePool"
    [ required "pool_address" Str;
      required "frequency" Int;
      required "metadata" PoolMetadata ].

Definition GetDailyActivePoolsResponse : ty :=
  BaseModel "GetDailyActivePoolsResponse"
    [ required "active_pools" (List_ ActivePool);
      required "pagination" Pagination ].

Definition HealthCheckResponse : ty :=
  BaseModel "HealthCheckResponse"
    [ required "status" Str ].

Definition GetCurrentEpochDataResponse : ty :=
  BaseModel "GetCurrentEpochDataResponse"
    [ required "begin" Int;
      required "end" Int;
      required "epochId" Int ].

Definition GetEpochInfoResponse : ty :=
  BaseModel "GetEpochInfoResponse"
    [ required "timestamp" Int;
      required "blocknumber" Int;
      required "epochEnd" Int ].

Definition GetProjectLastFinalizedEpochInfoResponse : ty :=
  BaseModel "GetProjectLastFinalizedEpochInfoResponse"
    [ required "epochId" Int;
      required "timestamp" Int;
      required "blocknumber" Int;
      required "epochEnd" Int ].

Definition GetDataForProjectIdEpochIdResponse : ty :=
  BaseModel "GetDataForProjectIdEpochIdResponse"
    [ required "address" Str;
      required "epoch" Epoch;
      required "previousSnapshots" (List_ Any);
      required "timestamps" (Dict Int);
      required "token0" Str;
      required "token0MintBurnVolume" Float;
      required "token0MintBurnVolumeUSD" Float;
      required "token0Prices" (Dict Float);
      required "token0PricesUSD" (Dict Float);
      required "token0Reserves" (Dict Float);
      required "token0ReservesUSD" (Dict Float);
      required "token0TradeVolume" Float;
      required "token0TradeVolumeUSD" Float;
      required "token1" Str;
      required "token1MintBurnVolume" Float;
      required "token1MintBurnVolumeUSD" Float;
      required "token1Prices" (Dict Float);
      required "token1PricesUSD" (Dict Float);
      required "token1Reserves" (Dict Float);
      required "token1ReservesUSD" (Dict Float);
      required "token1TradeVolume" Float;
      required "token1TradeVolumeUSD" Float;
      required "totalFee" Float;
      required "totalTrade" Float;
      required "totalTradeMintBurn" Float ].

Definition GetFinalizedCidForProjectIdEpochIdResponse : ty :=
  RootModel Str.

(** ** Configuration *)

(** [os.getenv(key, default)] on the process environment. *)
Definition os_getenv (environ : list (string * string)) (key default : string) : string :=
  match dict_get key environ with
  | Some v => v
  | None => default
  end.

(** The module-level constant, evaluated once when [main.py] is loaded. *)
Definition load_SNAPSHOTTER_CORE_API_URL (environ : list (string * string)) : string :=
  os_getenv environ "SNAPSHOTTER_CORE_API_URL" "https://bds-api.powerloom.io".

(** ** Requests, responses and errors *)

(** A value of the [params=] dict. *)
Inductive PrimitiveData : Type :=
| PInt (z : Z)
| PBool (b : bool).

(** One [client.get(url, params=...)]. *)
Record Request : Type := GET {
  url : string;
  params : list (string * PrimitiveData)
}.

(** What a handler reads from a response: the status code, the body text,
    and what [response.json()] gives: the decoded body, or [None] when the
    call raises. It raises [json.JSONDecodeError] on a body that is not
    JSON, and it can raise on other bodies too: a plain [ValueError] on an
    integer literal longer than the interpreter's digit limit,
    [UnicodeDecodeError] on bytes that do not decode, [RecursionError] on
    too deep a nesting. *)
Record Response : Type := mkResponse {
  status_code : Z;
  text : string;
  json : option JSON
}.

(** [Response.is_success] *)
Definition is_success (r : Response) : bool :=
  ((200 <=? status_code r) && (status_code r <=? 299))%Z.

(** The upstream either answers a request or the transport fails. *)
Inductive Outcome : Type :=
| Responded (r : Response)
| Failed (reason : string).

Definition Upstream : Type := Request -> Outcome.

(** What a handler raises. [ResponseJsonError] stands for whichever
    exception [response.json()] raised on the body [doc]; no handler
    catches any of them. *)
Inductive Error : Type :=
| ValueError (msg : string)
| HTTPStatusError (response : Response)
| ResponseJsonError (doc : string)
| ValidationError (errors : list LineError)
| TransportError (reason : string).

(** ** Handlers as computations *)

(** A handler reads the upstream, extends the trace of issued requests, and
    returns or raises. *)
Definition M (A : Type) : Type :=
  Upstream -> list Request -> (Error + A) * list Request.

Definition ret {A : Type} (a : A) : M A :=
  fun _ tr => (inr a, tr).

Definition raise {A : Type} (e : Error) : M A :=
  fun _ tr => (inl e, tr).

Definition bind {A B : Type} (m : M A) (k : A -> M B) : M B :=
  fun up tr =>
    match m up tr with
    | (inr a, tr') => k a up tr'
    | (inl e, tr') => (inl e, tr')
    end.

Notation "x <- m ;; k" := (bind m (fun x => k))
  (at level 61, m at next level, right associativity).
Notation "m ;; k" := (bind m (fun _ => k))
  (at level 61, right associativity).

(** Run a handler from an empty trace. *)
Definition run {A : Type} (m : M A) (up : Upstream) : (Error + A) * list Request :=
  m up [].

Definition result {A : Type} (m : M A) (up : Upstream) : Error + A := fst (run m up).
Definition requests {A : Type} (m : M A) (up : Upstream) : list Request := snd (run m up).

(** [await client.get(url, params=ps)] *)
Definition client_get (u : string) (ps : list (string * PrimitiveData)) : M Response :=
  fun up tr =>
    match up (GET u ps) with
    | Responded r => (inr r, tr ++ [GET u ps])
    | Failed reason => (inl (TransportError reason), tr ++ [GET u ps])
    end.

(** [response.raise_for_status()] *)
Definition raise_for_status (response : Response) : M unit :=
  if is_success response then ret tt else raise (HTTPStatusError response).

(** [response.json()] *)
Definition response_json (response : Response) : M JSON :=
  match json response with
  | Some data => ret data
  | None => raise (ResponseJsonError (text response))
  end.

(** ** Python values in conditions and f-strings *)

(** [str(z)] *)
Definition str_of_int (z : Z) : string := NilZero.string_of_int (Z.to_int z).

(** [f"{x}"] for an [Optional[int]] and for an [Optional[str]]. *)
Definition fmt_int (x : option Z) : string :=
  match x with Some z => str_of_int z | None => "None" end.
Definition fmt_str (x : option string) : string :=
  match x with Some s => s | None => "None" end.

(** [x is None] *)
Definition is_None {A : Type} (x : option A) : bool :=
  match x with None => true | Some _ => false end.

(** [if x:] for an [Optional[int]]: [None] and [0] are false. *)
Definition truthy_int (x : option Z) : bool :=
  match x with Some z => negb (Z.eqb z 0) | None => false end.

(** [if x:] for an [Optional[str]]: [None] and the empty string are false. *)
Definition truthy_str (x : option string) : bool :=
  match x with Some s => negb (String.eqb s "") | None => false end.

(** A parameter with a default: [None] stands for an argument the caller
    left out. *)
Definition arg_or {A : Type} (default : A) (x : option A) : A :=
  match x with Some a => a | None => default end.

(** ** The tool handlers of [main.py] *)

Section Server.

Context {L : LaxStrings}.

(** The base URL the module was loaded with. *)
Variable SNAPSHOTTER_CORE_API_URL : string.

(** [Model.model_validate(data)] *)
Definition model_validate (model : ty) (data : JSON) : M value :=
  match validate model data with
  | inr v => ret v
  | inl es => raise (ValidationError es)
  end.

Definition _get_pool_metadata (pool_address : string) : M value :=
  response <- client_get
    (SNAPSHOTTER_CORE_API_URL ++ "/pool/" ++ pool_address ++ "/metadata") [] ;;
  raise_for_status response ;;
  data <- response_json response ;;
  model_validate PoolMetadata data.

Definition _get_token_pools (token_address : string) : M value :=
  response <- client_get
    (SNAPSHOTTER_CORE_API_URL ++ "/token/" ++ token_address ++ "/pools") [] ;;
  raise_for_status response ;;
  data <- response_json response ;;
  model_validate GetTokenPoolsResponse data.

Definition _get_ethprice (block_number : option Z) : M value :=
  response <-
    (if is_None block_number
     then client_get (SNAPSHOTTER_CORE_API_URL ++ "/ethPrice") []
     else client_get
            (SNAPSHOTTER_CORE_API_URL ++ "/ethPrice/" ++ fmt_int block_number) []) ;;
  raise_for_status response ;;
  data <- response_json response ;;
  model_validate GetEthPriceResponse data.

(** The only handler that returns [response.json()] as it is. *)
Definition _get_token_price_pool (token_address : string)
    (pool_address : option string) (block_number : option Z) : M JSON :=
  response <-
    (if truthy_str pool_address && truthy_int block_number
     then client_get
            (SNAPSHOTTER_CORE_API_URL ++ "/token/price/" ++ token_address ++ "/"
               ++ fmt_str pool_address ++ "/" ++ fmt_int block_number) []
     else if truthy_str pool_address
     then client_get
            (SNAPSHOTTER_CORE_API_URL ++ "/token/price/" ++ token_address ++ "/"
               ++ fmt_str pool_address) []
     else raise (ValueError "Either pool_address or block_number must be provided.")) ;;
  raise_for_status response ;;
  response_json response.

Definition _get_token_base_snapshots (token_address : string) : M value :=
  response <- client_get
    (SNAPSHOTTER_CORE_API_URL ++ "/snapshot/base_all_pools/" ++ token_address) [] ;;
  raise_for_status response ;;
  data <- response_json response ;;
  model_validate GetTokenBaseSnapshotsResponse data.

Definition _get_base_snapshot (pool_address : string) (block_number : option Z) : M value :=
  response <-
    (if truthy_int block_number
     then client_get
            (SNAPSHOTTER_CORE_API_URL ++ "/snapshot/base/" ++ pool_address ++ "/"
               ++ fmt_int block_number) []
     else client_get
            (SNAPSHOTTER_CORE_API_URL ++ "/snapshot/base/" ++ pool_address) []) ;;
  raise_for_status response ;;
  data <- response_json response ;;
  model_validate GetBaseSnapshotResponse data.

Definition _get_trades_snapshot (pool_address : string) (block_number : option Z) : M value :=
  response <-
    (if truthy_int block_number
     then client_get
            (SNAPSHOTTER_CORE_API_URL ++ "/snapshot/trades/" ++ pool_address ++ "/"
               ++ fmt_int block_number) []
     else client_get
            (SNAPSHOTTER_CORE_API_URL ++ "/snapshot/trades/" ++ pool_address) []) ;;
  raise_for_status response ;;
  data <- response_json response ;;
  model_validate GetTradesSnapshotResponse data.

Definition _get_all_trades_snapshot (block_number : option Z) : M value :=
  response <-
    (if truthy_int block_number
     then client_get
            (SNAPSHOTTER_CORE_API_URL ++ "/snapshot/allTrades/" ++ fmt_int block_number) []
     else client_get (SNAPSHOTTER_CORE_API_URL ++ "/snapshot/allTrades") []) ;;
  raise_for_status response ;;
  data <- response_json response ;;
  model_validate GetAllTradesSnapshotResponse data.

Definition _get_token_price_all (token_address : string) (block_number : option Z) : M value :=
  response <-
    (if truthy_int block_number
     then client_get
            (SNAPSHOTTER_CORE_API_URL ++ "/tokenPrices/all/" ++ token_address ++ "/"
               ++ fmt_int block_number) []
     else client_get
            (SNAPSHOTTER_CORE_API_URL ++ "/tokenPrices/all/" ++ token_address) []) ;;
  raise_for_status response ;;
  data <- response_json response ;;
  model_validate GetTokenPriceAllResponse data.

Definition _get_trade_volume_agg_all_pools (token_address : string) (time_interval : Z) : M value :=
  response <- client_get
    (SNAPSHOTTER_CORE_API_URL ++ "/tradeVolumeAllPools/" ++ token_address ++ "/"
       ++ str_of_int time_interval) [] ;;
  raise_for_status response ;;
  data <- response_json response ;;
  model_validate GetTradeVolumeAggResponse data.

Definition _get_trade_volume_agg (pool_address : string) (time_interval : Z) : M value :=
  response <- client_get
    (SNAPSHOTTER_CORE_API_URL ++ "/tradeVolume/" ++ pool_address ++ "/"
       ++ str_of_int time_interval) [] ;;
  raise_for_status response ;;
  data <- response_json response ;;
  model_validate GetTradeVolumeAggResponse data.

Definition _get_pool_trades (pool_address : string) (start_timestamp end_timestamp : Z) : M value :=
  response <- client_get
    (SNAPSHOTTER_CORE_API_URL ++ "/poolTrades/" ++ pool_address ++ "/"
       ++ str_of_int start_timestamp ++ "/" ++ str_of_int end_timestamp) [] ;;
  raise_for_status response ;;
  data <- response_json response ;;
  model_validate GetPoolTradesResponse data.

Definition _get_token_price_series (token_address pool_address : string)
    (time_interval step_seconds : Z) : M value :=
  response <- client_get
    (SNAPSHOTTER_CORE_API_URL ++ "/timeSeries/" ++ token_address ++ "/" ++ pool_address
       ++ "/" ++ str_of_int time_interval ++ "/" ++ str_of_int step_seconds) [] ;;
  raise_for_status response ;;
  data <- response_json response ;;
  model_validate GetTokenPriceSeriesResponse data.

(** [page: int = 1, size: int = 50, metadata: bool = False,
    time_interval: int = 86400] *)
Definition _get_daily_active_tokens (page size : option Z) (metadata : option bool)
    (time_interval : option Z) : M value :=
  let page := arg_or 1%Z page in
  let size := arg_or 50%Z size in
  let metadata := arg_or false metadata in
  let time_interval := arg_or 86400%Z time_interval in
  response <- client_get (SNAPSHOTTER_CORE_API_URL ++ "/dailyActiveTokens")
    [ ("page", PInt page); ("size", PInt size); ("metadata", PBool metadata);
      ("time_interval", PInt time_interval) ] ;;
  raise_for_status response ;;
  data <- response_json response ;;
  model_validate GetDailyActiveTokensResponse data.

Definition _get_daily_active_pools (page size : option Z) (metadata : option bool)
    (time_interval : option Z) : M value :=
  let page := arg_or 1%Z page in
  let size := arg_or 50%Z size in
  let metadata := arg_or false metadata in
  let time_interval := arg_or 86400%Z time_interval in
  response <- client_get (SNAPSHOTTER_CORE_API_URL ++ "/dailyActivePools")
    [ ("page", PInt page); ("size", PInt size); ("metadata", PBool metadata);
      ("time_interval", PInt time_interval) ] ;;
  raise_for_status response ;;
  data <- response_json response ;;
  model_validate GetDailyActivePoolsResponse data.

Definition _health_check : M value :=
  response <- client_get (SNAPSHOTTER_CORE_API_URL ++ "/health") [] ;;
  raise_for_status response ;;
  data <- response_json response ;;
  model_validate HealthCheckResponse data.

Definition _get_current_epoch_data : M value :=
  response <- client_get (SNAPSHOTTER_CORE_API_URL ++ "/current_epoch") [] ;;
  raise_for_status response ;;
  data <- response_json response ;;
  model_validate GetCurrentEpochDataResponse data.

Definition _get_epoch_info (epoch_id : Z) : M value :=
  response <- client_get (SNAPSHOTTER_CORE_API_URL ++ "/epoch/" ++ str_of_int epoch_id) [] ;;
  raise_for_status response ;;
  data <- response_json response ;;
  model_validate GetEpochInfoResponse data.

Definition _get_project_last_finalized_epoch_info (project_id : string) : M value :=
  response <- client_get
    (SNAPSHOTTER_CORE_API_URL ++ "/last_finalized_epoch/" ++ project_id) [] ;;
  raise_for_status response ;;
  data <- response_json response ;;
  model_validate GetProjectLastFinalizedEpochInfoResponse data.

Definition _get_data_for_project_id_epoch_id (project_id : string) (epoch_id : Z) : M value :=
  response <- client_get
    (SNAPSHOTTER_CORE_API_URL ++ "/data/" ++ str_of_int epoch_id ++ "/" ++ project_id ++ "/") [] ;;
  raise_for_status response ;;
  data <- response_json response ;;
  model_validate GetDataForProjectIdEpochIdResponse data.

Definition _get_finalized_cid_for_project_id_epoch_id (project_id : string) (epoch_id : Z)
    : M value :=
  response <- client_get
    (SNAPSHOTTER_CORE_API_URL ++ "/cid/" ++ str_of_int epoch_id ++ "/" ++ project_id ++ "/") [] ;;
  raise_for_status response ;;
  data <- response_json response ;;
  model_validate GetFinalizedCidForProjectIdEpochIdResponse data.

(** ** The registered tools *)

(** A tool call: the name of an [@mcp.tool] function with its arguments. *)
Inductive ToolCall : Type :=
| get_pool_metadata (pool_address : string)
| get_token_pools (token_address : string)
| get_ethprice (block_number : option Z)
| get_token_price_pool (token_address : string) (pool_address : option string)
    (block_number : option Z)
| get_token_base_snapshots (token_address : string)
| get_base_snapshot (pool_address : string) (block_number : option Z)
| get_trades_snapshot (pool_address : string) (block_number : option Z)
| get_all_trades_snapshot (block_number : option Z)
| get_token_price_all (token_address : string) (block_number : option Z)
| get_trade_volume_agg_all_pools (token_address : string) (time_interval : Z)
| get_trade_volume_agg (pool_address : string) (time_interval : Z)
| get_pool_trades (pool_address : string) (start_timestamp end_timestamp : Z)
| get_token_price_series (token_address pool_address : string)
    (time_interval step_seconds : Z)
| get_daily_active_tokens (page size : option Z) (metadata : option bool)
    (time_interval : option Z)
| get_daily_active_pools (page size : option Z) (metadata : option bool)
    (time_interval : option Z)
| health_check
| get_current_epoch_data
| get_epoch_info (epoch_id : Z)
| get_project_last_finalized_epoch_info (project_id : string)
| get_data_for_project_id_epoch_id (project_id : string) (epoch_id : Z)
| get_finalized_cid_for_project_id_epoch_id (project_id : string) (epoch_id : Z).

(** What a tool hands back: a validated model, or the decoded body as it
    came. *)
Inductive Returned : Type :=
| Model (v : value)
| Raw (data : JSON).

Definition returning {A : Type} (wrap : A -> Returned) (m : M A) : M Returned :=
  a <- m ;; ret (wrap a).

(** Every tool body is [return await _handler(args)]. *)
Definition call_tool (c : ToolCall) : M Returned :=
  match c with
  | get_pool_metadata p => returning Model (_get_pool_metadata p)
  | get_token_pools t => returning Model (_get_token_pools t)
  | get_ethprice b => returning Model (_get_ethprice b)
  | get_token_price_pool t p b => returning Raw (_get_token_price_pool t p b)
  | get_token_base_snapshots t => returning Model (_get_token_base_snapshots t)
  | get_base_snapshot p b => returning Model (_get_base_snapshot p b)
  | get_trades_snapshot p b => returning Model (_get_trades_snapshot p b)
  | get_all_trades_snapshot b => returning Model (_get_all_trades_snapshot b)
  | get_token_price_all t b => returning Model (_get_token_price_all t b)
  | get_trade_volume_agg_all_pools t i =>
      returning Model (_get_trade_volume_agg_all_pools t i)
  | get_trade_volume_agg p i => returning Model (_get_trade_volume_agg p i)
  | get_pool_trades p s e => returning Model (_get_pool_trades p s e)
  | get_token_price_series t p i s => returning Model (_get_token_price_series t p i s)
  | get_daily_active_tokens p s m i => returning Model (_get_daily_active_tokens p s m i)
  | get_daily_active_pools p s m i => returning Model (_get_daily_active_pools p s m i)
  | health_check => returning Model _health_check
  | get_current_epoch_data => returning Model _get_current_epoch_data
  | get_epoch_info e => returning Model (_get_epoch_info e)
  | get_project_last_finalized_epoch_info p =>
      returning Model (_get_project_last_finalized_epoch_info p)
  | get_data_for_project_id_epoch_id p e =>
      returning Model (_get_data_for_project_id_epoch_id p e)
  | get_finalized_cid_for_project_id_epoch_id p e =>
      returning Model (_get_finalized_cid_for_project_id_epoch_id p e)
  end.

(** The model each handler passes to [model_validate]; the pool price
    handler passes none. *)
Definition response_model (c : ToolCall) : option ty :=
  match c with
  | get_pool_metadata _ => Some PoolMetadata
  | get_token_pools _ => Some GetTokenPoolsResponse
  | get_ethprice _ => Some GetEthPriceResponse
  | get_token_price_pool _ _ _ => None
  | get_token_base_snapshots _ => Some GetTokenBaseSnapshotsResponse
  | get_base_snapshot _ _ => Some GetBaseSnapshotResponse
  | get_trades_snapshot _ _ => Some GetTradesSnapshotResponse
  | get_all_trades_snapshot _ => Some GetAllTradesSnapshotResponse
  | get_token_price_all _ _ => Some GetTokenPriceAllResponse
  | get_trade_volume_agg_all_pools _ _ => Some GetTradeVolumeAggResponse
  | get_trade_volume_agg _ _ => Some GetTradeVolumeAggResponse
  | get_pool_trades _ _ _ => Some GetPoolTradesResponse
  | get_token_price_series _ _ _ _ => Some GetTokenPriceSeriesResponse
  | get_daily_active_tokens _ _ _ _ => Some GetDailyActiveTokensResponse
  | get_daily_active_pools _ _ _ _ => Some GetDailyActivePoolsResponse
  | health_check => Some HealthCheckResponse
  | get_current_epoch_data => Some GetCurrentEpochDataResponse
  | get_epoch_info _ => Some GetEpochInfoResponse
  | get_project_last_finalized_epoch_info _ =>
      Some GetProjectLastFinalizedEpochInfoResponse
  | get_data_for_project_id_epoch_id _ _ => Some GetDataForProjectIdEpochIdResponse
  | get_finalized_cid_for_project_id_epoch_id _ _ =>
      Some GetFinalizedCidForProjectIdEpochIdResponse
  end.

End Server.

(** ** A reader for examples *)

(** Plain decimal integer literals, and nothing else, are read as
    numbers. *)
Definition decimal_literals : LaxStrings := {|
  str_as_int := fun s => option_map Z.of_int (NilZero.int_of_string s);
  str_as_float := fun s =>
    option_map (fun d => float_of_int (Z.of_int d)) (NilZero.int_of_string s)
|}.

(** An upstream that answers every request with the same response. *)
Definition always (r : Response) : Upstream := fun _ => Responded r.

(** Example bodies: a token, a token without [address], and a pool
    without [fee]. *)
Definition weth : JSON :=
  JObject [ ("address", JString "0xweth"); ("name", JString "Wrapped Ether");
            ("symbol", JString "WETH"); ("decimals", JInt 18) ].

Definition usdc_without_address : list (string * JSON) :=
  [ ("name", JString "USD Coin"); ("symbol", JString "USDC"); ("decimals", JInt 6) ].

Definition pool_without_fee : list (string * JSON) :=
  [ ("address", JString "0xpool"); ("token0", weth);
    ("token1", JObject usdc_without_address); ("factory", JString "0xfactory") ].

(** ** The command line of [main.py] *)

(** [int(s)] on a string is the interpreter's: [None] when it raises
    [ValueError]. It is left open, like the validator's readers. *)
Class Builtins : Type := {
  int : string -> option Z
}.

(** The uncaught [ValueError] of [int(args[i + 1])], with the literal it
    was raised on. *)
Inductive StartupError : Type :=
| invalid_literal (s : string).

(** The three variables the argument loop assigns. *)
Record Options : Type := mkOptions {
  transport : string;
  host : string;
  port : Z
}.

(** [transport = "stdio"; host = "127.0.0.1"; port = 8000] *)
Definition default_options : Options := mkOptions "stdio" "127.0.0.1" 8000.

(** The [while i < len(args)] loop, on the arguments from position [i]
    on. A flag is taken with its value when [i + 1 < len(args)], that is
    when an argument follows it, and the loop goes on two places further;
    every other argument moves it one place. *)
Fixpoint parse_args {B : Builtins} (args : list string) (o : Options)
    : StartupError + Options :=
  match args with
  | [] => inr o
  | a :: rest =>
      match rest with
      | v :: rest' =>
          if String.eqb a "--transport"
          then parse_args rest' (mkOptions v (host o) (port o))
          else if String.eqb a "--host"
          then parse_args rest' (mkOptions (transport o) v (port o))
          else if String.eqb a "--port"
          then match int v with
               | Some p => parse_args rest' (mkOptions (transport o) (host o) p)
               | None => inl (invalid_literal v)
               end
          else parse_args rest o
      | [] => parse_args rest o
      end
  end.

(** The call to [mcp.run] that ends the script. *)
Inductive McpRun : Type :=
| run_http (host : string) (port : Z)
| run_sse (host : string) (port : Z)
| run_stdio.

(** What the script does once the arguments are read: the line it prints
    and the call it makes. *)
Record Startup : Type := mkStartup {
  printed : string;
  started : McpRun
}.

Definition start (o : Options) : Startup :=
  if String.eqb (transport o) "http"
  then mkStartup
         ("Starting MCP server with HTTP transport on " ++ host o ++ ":"
            ++ str_of_int (port o))
         (run_http (host o) (port o))
  else if String.eqb (transport o) "sse"
  then mkStartup
         ("Starting MCP server with SSE transport on " ++ host o ++ ":"
            ++ str_of_int (port o))
         (run_sse (host o) (port o))
  else mkStartup "Starting MCP server with STDIO transport" run_stdio.

(** The [if __name__ == "__main__":] block, given [sys.argv]. *)
Definition main {B : Builtins} (sys_argv : list string) : StartupError + Startup :=
  match parse_args (tl sys_argv) default_options with
  | inr o => inr (start o)
  | inl e => inl e
  end.

(** *** A command line, word by word *)

Inductive Flag : Type :=
| Transport
| Host
| Port.

Definition flag_name (f : Flag) : string :=
  match f with
  | Transport => "--transport"
  | Host => "--host"
  | Port => "--port"
  end.

Definition is_flag (x : string) : bool :=
  String.eqb x "--transport" || String.eqb x "--host" || String.eqb x "--port".

(** A flag followed by its value, or a single argument that is none of
    the three flags. *)
Inductive Word : Type :=
| Opt (f : Flag) (v : string)
| Stray (x : string).

Definition word_args (w : Word) : list string :=
  match w with
  | Opt f v => [flag_name f; v]
  | Stray x => [x]
  end.

Definition well_formed (w : Word) : bool :=
  match w with
  | Opt _ _ => true
  | Stray x => negb (is_flag x)
  end.

(** The effect of one word, and of a line of words from left to right. *)
Definition apply_word {B : Builtins} (o : Options) (w : Word) : StartupError + Options :=
  match w with
  | Opt Transport v => inr (mkOptions v (host o) (port o))
  | Opt Host v => inr (mkOptions (transport o) v (port o))
  | Opt Port v =>
      match int v with
      | Some p => inr (mkOptions (transport o) (host o) p)
      | None => inl (invalid_literal v)
      end
  | Stray _ => inr o
  end.

Fixpoint apply_words {B : Builtins} (ws : list Word) (o : Options)
    : StartupError + Options :=
  match ws with
  | [] => inr o
  | w :: ws' =>
      match apply_word o w with
      | inr o' => apply_words ws' o'
      | inl e => inl e
      end
  end.

(** ** The pool price tests of [test_api_endpoints.py] *)

Inductive TestOutcome : Type :=
| passed
| assertion_failed
| errored (e : Error).

(** [isinstance(result, float)] on a decoded body. *)
Definition isinstance_float (data : JSON) : bool :=
  match data with JFloat _ => true | _ => false end.

Section Tests.

Variable SNAPSHOTTER_CORE_API_URL : string.

Definition test_get_token_price_pool_with_block (up : Upstream) : TestOutcome :=
  let token_address := "0xe0B7AD7F8F26e2b00C8b47b5Df370f15F90fCF48" in
  let pool_address := "0x7E75b6876a9feE811EC67B55385BA5A1491D11f3" in
  let block_number := 22844810%Z in
  match result (_get_token_price_pool SNAPSHOTTER_CORE_API_URL token_address
                  (Some pool_address) (Some block_number)) up with
  | inr data => if isinstance_float data then passed else assertion_failed
  | inl e => errored e
  end.

Definition test_get_token_price_pool_no_block (up : Upstream) : TestOutcome :=
  let token_address := "0xe0B7AD7F8F26e2b00C8b47b5Df370f15F90fCF48" in
  let pool_address := "0x7E75b6876a9feE811EC67B55385BA5A1491D11f3" in
  match result (_get_token_price_pool SNAPSHOTTER_CORE_API_URL token_address
                  (Some pool_address) None) up with
  | inr data => if isinstance_float data then passed else assertion_failed
  | inl e => errored e
  end.

End Tests.

(** A reader of [int] for examples: plain decimal literals. *)
Definition decimal_int : Builtins := {|
  int := fun s => option_map Z.of_int (NilZero.int_of_string s)
|}.

(** * Properties *)

(** ** Strings *)

Lemma append_inj_l (a b c : string) : (a ++ b = a ++ c)%string -> b = c.
Proof.
  induction a as [|x a IH]; simpl; intros H.
  - exact H.
  - injection H as H. exact (IH H).
Qed.

Lemma forallb_pointwise {A : Type} (f g : A -> bool) (l : list A) :
  (forall x, f x = g x) -> forallb f l = forallb g l.
Proof.
  intros H. induction l as [|x l IH]; simpl; [reflexivity|].
  rewrite H, IH. reflexivity.
Qed.

(** ** Running a handler *)

Ltac unfold_handler :=
  unfold _get_pool_metadata, _get_token_pools, _get_ethprice, _get_token_price_pool,
    _get_token_base_snapshots, _get_base_snapshot, _get_trades_snapshot,
    _get_all_trades_snapshot, _get_token_price_all, _get_trade_volume_agg_all_pools,
    _get_trade_volume_agg, _get_pool_trades, _get_token_price_series,
    _get_daily_active_tokens, _get_daily_active_pools, _health_check,
    _get_current_epoch_data, _get_epoch_info, _get_project_last_finalized_epoch_info,
    _get_data_for_project_id_epoch_id, _get_finalized_cid_for_project_id_epoch_id
    in *;
  cbv zeta in *.

Section HandlerProperties.

Context {L : LaxStrings}.
Variable SNAPSHOTTER_CORE_API_URL : string.

Local Abbreviation base := SNAPSHOTTER_CORE_API_URL.

(** What follows the GET in every validating handler. *)
Local Abbreviation finish model response :=
  (raise_for_status response ;;
   data <- response_json response ;;
   model_validate model data).

(** The steps after the GET issue no request. *)
Lemma finish_trace (model : ty) (response : Response) (up : Upstream) (tr : list Request) :
  snd (finish model response up tr) = tr.
Proof.
  unfold bind, raise_for_status, response_json, model_validate, ret, raise.
  destruct (is_success response); simpl; [|reflexivity].
  destruct (json response) as [data|]; simpl; [|reflexivity].
  destruct (validate model data); reflexivity.
Qed.

Lemma finish_not_success (model : ty) (response : Response) (up : Upstream) (tr : list Request) :
  is_success response = false ->
  finish model response up tr = (inl (HTTPStatusError response), tr).
Proof.
  intros H. unfold bind, raise_for_status. rewrite H. reflexivity.
Qed.

Lemma finish_success (model : ty) (response : Response) (up : Upstream) (tr : list Request) :
  is_success response = true ->
  finish model response up tr =
    (match json response with
     | None => inl (ResponseJsonError (text response))
     | Some data =>
         match validate model data with
         | inr v => inr v
         | inl es => inl (ValidationError es)
         end
     end, tr).
Proof.
  intros H. unfold bind, raise_for_status, response_json, model_validate.
  rewrite H. simpl.
  destruct (json response) as [data|]; simpl; [|reflexivity].
  destruct (validate model data); reflexivity.
Qed.

(** A handler that issues one GET and hands the response to [k]. *)
Lemma run_get {A : Type} (u : string) (ps : list (string * PrimitiveData))
    (k : Response -> M A) (up : Upstream) :
  run (response <- client_get u ps ;; k response) up =
    match up (GET u ps) with
    | Responded r => k r up [GET u ps]
    | Failed reason => (inl (TransportError reason), [GET u ps])
    end.
Proof.
  unfold run, bind, client_get. destruct (up (GET u ps)); reflexivity.
Qed.

(** When the steps after the GET issue no request, the trace is that one
    GET, whatever the upstream does. *)
Lemma one_get_requests {A : Type} (u : string) (ps : list (string * PrimitiveData))
    (k : Response -> M A) (up : Upstream) :
  (forall resp tr, snd (k resp up tr) = tr) ->
  requests (response <- client_get u ps ;; k response) up = [GET u ps].
Proof.
  intros Hk. unfold requests. rewrite run_get.
  destruct (up (GET u ps)); [apply Hk | reflexivity].
Qed.

Lemma one_get_non_2xx {A : Type} (u : string) (ps : list (string * PrimitiveData))
    (k : Response -> M A) (up : Upstream) (r : Request) (response : Response) :
  (forall resp tr, snd (k resp up tr) = tr) ->
  (forall resp tr, is_success resp = false ->
     k resp up tr = (inl (HTTPStatusError resp), tr)) ->
  In r (requests (resp <- client_get u ps ;; k resp) up) ->
  up r = Responded response ->
  is_success response = false ->
  run (resp <- client_get u ps ;; k resp) up = (inl (HTTPStatusError response), [r]).
Proof.
  intros Htr Hk Hin Hup Hns.
  rewrite one_get_requests in Hin by exact Htr.
  destruct Hin as [<-|[]].
  rewrite run_get, Hup. apply Hk, Hns.
Qed.

Lemma one_get_2xx {A : Type} (u : string) (ps : list (string * PrimitiveData))
    (k : Response -> M A) (up : Upstream) (r : Request) (response : Response) :
  (forall resp tr, snd (k resp up tr) = tr) ->
  In r (requests (resp <- client_get u ps ;; k resp) up) ->
  up r = Responded response ->
  run (resp <- client_get u ps ;; k resp) up = k response up [r].
Proof.
  intros Htr Hin Hup.
  rewrite one_get_requests in Hin by exact Htr.
  destruct Hin as [<-|[]].
  rewrite run_get, Hup. reflexivity.
Qed.

(** The pool price handler's steps after the GET. *)
Lemma raw_trace (response : Response) (up : Upstream) (tr : list Request) :
  snd ((raise_for_status response ;; response_json response) up tr) = tr.
Proof.
  unfold bind, raise_for_status, response_json, ret, raise.
  destruct (is_success response); simpl; [|reflexivity].
  destruct (json response); reflexivity.
Qed.

Lemma raw_not_success (response : Response) (up : Upstream) (tr : list Request) :
  is_success response = false ->
  (raise_for_status response ;; response_json response) up tr =
    (inl (HTTPStatusError response), tr).
Proof.
  intros H. unfold bind, raise_for_status. rewrite H. reflexivity.
Qed.

(** The tool wrapper adds nothing to what its handler does. *)
Lemma run_returning {A : Type} (wrap : A -> Returned) (m : M A) (up : Upstream) :
  run (returning wrap m) up =
    (match fst (run m up) with inr a => inr (wrap a) | inl e => inl e end,
     snd (run m up)).
Proof.
  unfold returning, run, bind, ret. destruct (m up []) as [[e|a] tr]; reflexivity.
Qed.

Lemma requests_returning {A : Type} (wrap : A -> Returned) (m : M A) (up : Upstream) :
  requests (returning wrap m) up = requests m up.
Proof.
  unfold requests. rewrite run_returning. reflexivity.
Qed.

Lemma returning_error {A : Type} (wrap : A -> Returned) (m : M A) (up : Upstream)
    (e : Error) (tr : list Request) :
  run m up = (inl e, tr) -> run (returning wrap m) up = (inl e, tr).
Proof.
  intros H. rewrite run_returning, H. reflexivity.
Qed.

(** The pool price handler raises before any request when [pool_address]
    is left out, whatever [block_number] is. *)
Lemma token_price_pool_without_pool (token_address : string) (block_number : option Z)
    (up : Upstream) :
  run (_get_token_price_pool base token_address None block_number) up =
    (inl (ValueError "Either pool_address or block_number must be provided."), []).
Proof. reflexivity. Qed.

(** Every tool issues at most the one request fixed by its arguments and
    the base URL. *)
Lemma requests_fixed (c : ToolCall) (up1 up2 : Upstream) :
  requests (call_tool base c) up1 = requests (call_tool base c) up2.
Proof.
  destruct c; cbn [call_tool]; rewrite !requests_returning;
    unfold_handler;
    repeat match goal with
    | |- context [if ?b then _ else _] => destruct b
    end;
    try reflexivity;
    rewrite !one_get_requests; auto using finish_trace, raw_trace.
Qed.

(** On a 2xx response every handler that has a response model decodes the
    body and validates it against that model: the call ends with what
    [response.json()] raises when it raises, with the model's errors when
    the model rejects the decoded body, and with the validated value
    otherwise. *)
Lemma validated_on_2xx (c : ToolCall) (model : ty) (up : Upstream) (r : Request)
    (response : Response) :
  response_model c = Some model ->
  In r (requests (call_tool base c) up) ->
  up r = Responded response ->
  is_success response = true ->
  run (call_tool base c) up =
    (match json response with
     | None => inl (ResponseJsonError (text response))
     | Some data =>
         match validate model data with
         | inr v => inr (Model v)
         | inl es => inl (ValidationError es)
         end
     end, [r]).
Proof.
  intros Hm Hin Hup Hok.
  destruct c; cbn [call_tool response_model] in *;
    try discriminate; injection Hm as <-;
    rewrite requests_returning in Hin; rewrite run_returning;
    unfold_handler;
    repeat match goal with
    | |- context [if ?b then _ else _] => destruct b
    end;
    rewrite (one_get_2xx _ _ _ up r response
               (fun resp tr => finish_trace _ resp up tr) Hin Hup);
    rewrite finish_success by exact Hok; cbn [fst snd];
    destruct (json response) as [data|]; try reflexivity;
    match goal with
    | |- context [validate ?m data] => destruct (validate m data); reflexivity
    end.
Qed.

(** The eth price handler tests [block_number is None]: every supplied
    block number, [0] included, goes into the URL. *)
Lemma ethprice_url (block_number : option Z) (up : Upstream) :
  requests (call_tool base (get_ethprice block_number)) up =
    [GET (match block_number with
          | None => base ++ "/ethPrice"
          | Some z => base ++ "/ethPrice/" ++ str_of_int z
          end) []].
Proof.
  cbn [call_tool]. rewrite requests_returning. unfold_handler.
  destruct block_number; cbn [is_None fmt_int];
    apply one_get_requests; intros; apply finish_trace.
Qed.

(** The other handlers with an optional block number test its truth
    value: the block goes into the URL when it is supplied and is not
    [0]. *)
Lemma snapshot_urls_nonzero (pool_address token_address : string) (z : Z) (up : Upstream) :
  z <> 0%Z ->
  requests (call_tool base (get_base_snapshot pool_address (Some z))) up =
    [GET (base ++ "/snapshot/base/" ++ pool_address ++ "/" ++ str_of_int z) []] /\
  requests (call_tool base (get_trades_snapshot pool_address (Some z))) up =
    [GET (base ++ "/snapshot/trades/" ++ pool_address ++ "/" ++ str_of_int z) []] /\
  requests (call_tool base (get_all_trades_snapshot (Some z))) up =
    [GET (base ++ "/snapshot/allTrades/" ++ str_of_int z) []] /\
  requests (call_tool base (get_token_price_all token_address (Some z))) up =
    [GET (base ++ "/tokenPrices/all/" ++ token_address ++ "/" ++ str_of_int z) []].
Proof.
  intros Hz. apply Z.eqb_neq in Hz.
  repeat split; cbn [call_tool]; rewrite requests_returning; unfold_handler;
    cbn [truthy_int fmt_int]; rewrite Hz; cbn [negb];
    apply one_get_requests; intros; apply finish_trace.
Qed.

Lemma snapshot_urls_omitted (pool_address token_address : string) (up : Upstream) :
  requests (call_tool base (get_base_snapshot pool_address None)) up =
    [GET (base ++ "/snapshot/base/" ++ pool_address) []] /\
  requests (call_tool base (get_trades_snapshot pool_address None)) up =
    [GET (base ++ "/snapshot/trades/" ++ pool_address) []] /\
  requests (call_tool base (get_all_trades_snapshot None)) up =
    [GET (base ++ "/snapshot/allTrades") []] /\
  requests (call_tool base (get_token_price_all token_address None)) up =
    [GET (base ++ "/tokenPrices/all/" ++ token_address) []].
Proof.
  repeat split; cbn [call_tool]; rewrite requests_returning; unfold_handler;
    cbn [truthy_int]; apply one_get_requests; intros; apply finish_trace.
Qed.

(** The pool price handler with a non-empty pool address: the long path
    for a block number that is not [0], the short path when the block
    number is left out. *)
Lemma token_price_pool_urls (token_address pool_address : string) (up : Upstream) :
  pool_address <> "" ->
  requests (call_tool base (get_token_price_pool token_address (Some pool_address) None)) up =
    [GET (base ++ "/token/price/" ++ token_address ++ "/" ++ pool_address) []] /\
  forall z, z <> 0%Z ->
    requests (call_tool base
                (get_token_price_pool token_address (Some pool_address) (Some z))) up =
      [GET (base ++ "/token/price/" ++ token_address ++ "/" ++ pool_address ++ "/"
              ++ str_of_int z) []].
Proof.
  intros Hp. apply String.eqb_neq in Hp.
  split; [|intros z Hz; apply Z.eqb_neq in Hz];
    cbn [call_tool]; rewrite requests_returning; unfold_handler;
    cbn [truthy_str truthy_int fmt_str fmt_int]; rewrite Hp; try rewrite Hz;
    cbn [negb andb];
    apply one_get_requests; intros; apply raw_trace.
Qed.

(** ** What the handlers guarantee *)

(** C4. Whatever the tool, when the upstream answers its GET with a status
    outside 200..299 the call fails with [HTTPStatusError] carrying that
    very response (status code and body); the tool wrapper passes the
    error on as it is, and the trace holds that one GET and no other. *)
Theorem non_2xx_raises_HTTPStatusError (c : ToolCall) (up : Upstream) (r : Request)
    (response : Response) :
  In r (requests (call_tool base c) up) ->
  up r = Responded response ->
  is_success response = false ->
  run (call_tool base c) up = (inl (HTTPStatusError response), [r]).
Proof.
  intros Hin Hup Hns.
  destruct c; cbn [call_tool] in *;
    rewrite requests_returning in Hin; apply returning_error;
    unfold_handler;
    repeat match goal with
    | |- context [if ?b then _ else _] => destruct b
    end;
    try (exfalso; exact Hin);
    (apply one_get_non_2xx;
       [ intros; first [apply finish_trace | apply raw_trace]
       | intros; first [apply finish_not_success | apply raw_not_success]; assumption
       | exact Hin | exact Hup | exact Hns ]).
Qed.

(** C6. The two pagination tools issue one GET to [/dailyActiveTokens]
    (resp. [/dailyActivePools]) with nothing appended to the path, and
    pass [page], [size], [metadata] and [time_interval] as parameters:
    the caller's value where one was given, and [1], [50], [False],
    [86400] where it was left out. *)
Theorem pagination_parameters (page size : option Z) (metadata : option bool)
    (time_interval : option Z) (up : Upstream) :
  let ps :=
    [ ("page", PInt (match page with Some p => p | None => 1%Z end));
      ("size", PInt (match size with Some n => n | None => 50%Z end));
      ("metadata", PBool (match metadata with Some b => b | None => false end));
      ("time_interval",
         PInt (match time_interval with Some i => i | None => 86400%Z end)) ] in
  requests (call_tool base (get_daily_active_tokens page size metadata time_interval)) up =
    [GET (base ++ "/dailyActiveTokens") ps] /\
  requests (call_tool base (get_daily_active_pools page size metadata time_interval)) up =
    [GET (base ++ "/dailyActivePools") ps].
Proof.
  split; cbn [call_tool]; rewrite requests_returning; unfold_handler;
    apply one_get_requests; intros; apply finish_trace.
Qed.

(** C1 (the pool price handler departs from it). Answered with status 200
    and the body [null], the pool price tool returns the decoded body as
    it came, although the float validator rejects it. *)
Theorem token_price_pool_returns_unvalidated_body :
  run (call_tool base (get_token_price_pool "0xtoken" (Some "0xpool") None))
      (always (mkResponse 200 "null" (Some JNull))) =
    (inr (Raw JNull), [GET (base ++ "/token/price/0xtoken/0xpool") []]) /\
  validate Float JNull = inl [([], float_type)].
Proof.
  split; reflexivity.
Qed.

(** C2 (the handler departs from it). Called with a pool address and the
    block number [0], the pool price tool requests the short path, not
    the long one. *)
Theorem token_price_pool_block_zero_short_path (up : Upstream) :
  requests (call_tool base (get_token_price_pool "0xtoken" (Some "0xpool") (Some 0%Z))) up =
    [GET (base ++ "/token/price/0xtoken/0xpool") []] /\
  GET (base ++ "/token/price/0xtoken/0xpool") [] <>
    GET (base ++ "/token/price/0xtoken/0xpool/0") [].
Proof.
  split.
  - cbn [call_tool]. rewrite requests_returning. unfold_handler.
    cbn. apply (one_get_requests (base ++ "/token/price/0xtoken/0xpool") []).
    intros; apply raw_trace.
  - intros H. injection H as H. apply append_inj_l in H. discriminate H.
Qed.

(** C3 (four handlers depart from it). Called with the block number [0],
    the base snapshot, trades snapshot, all-trades snapshot and
    token-price-all tools request the URL without a block. *)
Theorem block_number_zero_requests_no_block_url (up : Upstream) :
  requests (call_tool base (get_base_snapshot "0xpool" (Some 0%Z))) up =
    [GET (base ++ "/snapshot/base/0xpool") []] /\
  requests (call_tool base (get_trades_snapshot "0xpool" (Some 0%Z))) up =
    [GET (base ++ "/snapshot/trades/0xpool") []] /\
  requests (call_tool base (get_all_trades_snapshot (Some 0%Z))) up =
    [GET (base ++ "/snapshot/allTrades") []] /\
  requests (call_tool base (get_token_price_all "0xtoken" (Some 0%Z))) up =
    [GET (base ++ "/tokenPrices/all/0xtoken") []] /\
  GET (base ++ "/snapshot/base/0xpool") [] <> GET (base ++ "/snapshot/base/0xpool/0") [] /\
  GET (base ++ "/snapshot/trades/0xpool") [] <> GET (base ++ "/snapshot/trades/0xpool/0") [] /\
  GET (base ++ "/snapshot/allTrades") [] <> GET (base ++ "/snapshot/allTrades/0") [] /\
  GET (base ++ "/tokenPrices/all/0xtoken") [] <> GET (base ++ "/tokenPrices/all/0xtoken/0") [].
Proof.
  repeat split;
    try (cbn [call_tool]; rewrite requests_returning; unfold_handler; cbn;
         match goal with
         | |- requests (bind (client_get ?u ?ps) _) _ = _ =>
             apply (one_get_requests u ps); intros; apply finish_trace
         end);
    intros H; injection H as H; apply append_inj_l in H; discriminate H.
Qed.

End HandlerProperties.

(** C10. The requests a tool issues depend on its arguments and on the
    base URL the module was loaded with, and on nothing else: two calls of
    the same tool with the same arguments, under environments that give
    the same base URL, issue the same request, whatever the upstream
    answers to either. *)
Theorem request_determined_by_arguments_and_base_url {L : LaxStrings}
    (environ1 environ2 : list (string * string)) (c : ToolCall) (up1 up2 : Upstream) :
  load_SNAPSHOTTER_CORE_API_URL environ1 = load_SNAPSHOTTER_CORE_API_URL environ2 ->
  requests (call_tool (load_SNAPSHOTTER_CORE_API_URL environ1) c) up1 =
  requests (call_tool (load_SNAPSHOTTER_CORE_API_URL environ2) c) up2.
Proof.
  intros <-. apply requests_fixed.
Qed.


(** ** Validation *)

Section TyInduction.

Variable P : ty -> Prop.
Hypothesis HStr : P Str.
Hypothesis HInt : P Int.
Hypothesis HFloat : P Float.
Hypothesis HAny : P Any.
Hypothesis HOptional : forall t, P t -> P (Optional t).
Hypothesis HList : forall t, P t -> P (List_ t).
Hypothesis HDict : forall t, P t -> P (Dict t).
Hypothesis HModel :
  forall name fs, Forall (fun f => P (field_type f)) fs -> P (BaseModel name fs).

(** Induction on a type, with the hypothesis for every field of a
    model. *)
Lemma ty_nested_ind : forall t, P t.
Proof.
  fix IH 1. intros [ | | | | t | t | t | name fs].
  - exact HStr.
  - exact HInt.
  - exact HFloat.
  - exact HAny.
  - apply HOptional, IH.
  - apply HList, IH.
  - apply HDict, IH.
  - apply HModel. revert fs. fix IHfs 1. intros [|[[n d] t] fs].
    + constructor.
    + constructor; [apply IH | apply IHfs].
Qed.

End TyInduction.

Section ValidationProperties.

Context {L : LaxStrings}.

Lemma accepted_under {A : Type} (i : LocItem) (r : Validated A) :
  accepted (under i r) = accepted r.
Proof. destruct r; reflexivity. Qed.

Lemma accepted_both {A B C : Type} (f : A -> B -> C) (ra : Validated A) (rb : Validated B) :
  accepted (both f ra rb) = accepted ra && accepted rb.
Proof. destruct ra, rb; reflexivity. Qed.

(** A list is accepted when every item is. *)
Lemma validate_items_accepted (v : JSON -> Validated value) (js : list JSON) (i : nat) :
  accepted (validate_items v i js) = forallb (fun j => accepted (v j)) js.
Proof.
  revert i. induction js as [|j js IH]; intros i; simpl.
  - reflexivity.
  - rewrite accepted_both, accepted_under, IH. reflexivity.
Qed.

(** A dict is accepted when every value is. *)
Lemma validate_entries_accepted (v : JSON -> Validated value) (d : list (string * JSON)) :
  accepted (validate_entries v d) = forallb (fun kv => accepted (v (snd kv))) d.
Proof.
  induction d as [|[k j] d IH]; simpl.
  - reflexivity.
  - rewrite accepted_both, accepted_under, IH. reflexivity.
Qed.

Lemma accepted_list (t : ty) (j : JSON) :
  accepted (validate (List_ t) j) =
    match j with
    | JArray js => forallb (fun x => accepted (validate t x)) js
    | _ => false
    end.
Proof.
  destruct j; try reflexivity. simpl.
  rewrite <- (validate_items_accepted (validate t) items 0).
  destruct (validate_items (validate t) 0 items); reflexivity.
Qed.

Lemma accepted_dict (t : ty) (j : JSON) :
  accepted (validate (Dict t) j) =
    match j with
    | JObject d => forallb (fun kv => accepted (validate t (snd kv))) d
    | _ => false
    end.
Proof.
  destruct j; try reflexivity. simpl.
  rewrite <- (validate_entries_accepted (validate t) items).
  destruct (validate_entries (validate t) items); reflexivity.
Qed.

Lemma accepted_dict_any (j : JSON) :
  accepted (validate (Dict Any) j) = is_object j.
Proof.
  rewrite accepted_dict. destruct j; try reflexivity.
  simpl. induction items as [|kv d IH]; simpl; auto.
Qed.

(** What the float validator accepts. *)
Lemma accepted_float (j : JSON) :
  accepted (validate Float j) =
    match j with
    | JFloat _ | JBool _ => true
    | JInt z => is_finite (float_of_int z)
    | JString s => match str_as_float s with Some _ => true | None => false end
    | _ => false
    end.
Proof.
  destruct j; simpl; try reflexivity.
  - destruct (is_finite (float_of_int z)); reflexivity.
  - destruct (str_as_float s); reflexivity.
Qed.

(** *** Model fields *)

(** A key that is not the one looked up can be added anywhere. *)
Lemma dict_get_insert {A : Type} (k k' : string) (v : A) (d1 d2 : list (string * A)) :
  k <> k' ->
  dict_get k (d1 ++ (k', v) :: d2) = dict_get k (d1 ++ d2).
Proof.
  intros Hk. induction d1 as [|[k1 v1] d1 IH]; simpl.
  - apply String.eqb_neq in Hk. rewrite Hk. reflexivity.
  - rewrite IH. reflexivity.
Qed.


(** The outcome for a model depends on the body only through the keys the
    model declares. *)
Lemma validate_fields_agree (v : ty -> JSON -> Validated value)
    (d d' : list (string * JSON)) (fs : list Field) :
  (forall f, In f fs -> dict_get (field_name f) d' = dict_get (field_name f) d) ->
  validate_fields v d' fs = validate_fields v d fs.
Proof.
  induction fs as [|f fs IH]; intros H; simpl.
  - reflexivity.
  - unfold validate_field. rewrite (H f (or_introl eq_refl)).
    rewrite IH by (intros g Hg; apply H; right; exact Hg).
    reflexivity.
Qed.




(** Every error of a model is located below one of its declared
    fields. *)
Lemma validate_field_errors (v : ty -> JSON -> Validated value)
    (d : list (string * JSON)) (f : Field) (es : list LineError) (e : LineError) :
  validate_field v d f = inl es -> In e es ->
  exists rest, fst e = Key (field_name f) :: rest.
Proof.
  unfold validate_field. intros H Hin.
  destruct (dict_get (field_name f) d) as [j|].
  - destruct (v (field_type f) j) as [es0|x]; simpl in H; [|discriminate].
    injection H as <-. unfold at_loc in Hin. apply in_map_iff in Hin.
    destruct Hin as [e0 [<- _]]. exists (fst e0). reflexivity.
  - destruct (field_default f); [discriminate|].
    injection H as <-. destruct Hin as [<-|[]]. exists []. reflexivity.
Qed.

Lemma validate_fields_errors (v : ty -> JSON -> Validated value)
    (d : list (string * JSON)) (fs : list Field) (es : list LineError) (e : LineError) :
  validate_fields v d fs = inl es -> In e es ->
  exists f rest, In f fs /\ fst e = Key (field_name f) :: rest.
Proof.
  revert es. induction fs as [|f fs IH]; intros es H Hin; simpl in H.
  - discriminate.
  - destruct (validate_field v d f) as [es1|x] eqn:E1;
      destruct (validate_fields v d fs) as [es2|kvs] eqn:E2; simpl in H;
      try discriminate; injection H as <-.
    + apply in_app_or in Hin. destruct Hin as [Hin|Hin].
      * destruct (validate_field_errors v d f es1 e E1 Hin) as [rest Hr].
        exists f, rest. split; [left; reflexivity | exact Hr].
      * destruct (IH es2 eq_refl Hin) as [g [rest [Hg Hr]]].
        exists g, rest. split; [right; exact Hg | exact Hr].
    + destruct (validate_field_errors v d f es1 e E1 Hin) as [rest Hr].
      exists f, rest. split; [left; reflexivity | exact Hr].
    + destruct (IH es2 eq_refl Hin) as [g [rest [Hg Hr]]].
      exists g, rest. split; [right; exact Hg | exact Hr].
Qed.

Lemma validate_model (name : string) (fs : list Field) (d : list (string * JSON)) :
  validate (BaseModel name fs) (JObject d) =
    match validate_fields validate d fs with
    | inr kvs => inr (VModel kvs)
    | inl es => inl es
    end.
Proof. reflexivity. Qed.

Lemma both_inr_l {A B C : Type} (f : A -> B -> C) (a : A) (rb : Validated B) :
  both f (inr a) rb = match rb with inr b => inr (f a b) | inl es => inl es end.
Proof. destruct rb; reflexivity. Qed.

(** A field with a default that the body lacks takes the default. *)
Lemma validate_field_default (v : ty -> JSON -> Validated value)
    (d : list (string * JSON)) (f : Field) (dv : value) :
  dict_get (field_name f) d = None ->
  field_default f = Some dv ->
  validate_field v d f = inr dv.
Proof.
  intros Hget Hd. unfold validate_field. rewrite Hget, Hd. reflexivity.
Qed.




(** ** What the models guarantee *)


(** C7 (as amended). The three top-level responses that are not records:
    the finalized CID accepts exactly the strings; the pool trades accept
    exactly the lists whose items are all objects; the token prices
    accept exactly the objects whose values are each [null] or accepted
    by the float validator, which takes a float, an int that fits a
    float, a boolean, and a string it can read as a number. *)
Theorem root_models_accept :
  (forall j,
     accepted (validate GetFinalizedCidForProjectIdEpochIdResponse j) = true <->
     exists s, j = JString s) /\
  (forall j,
     accepted (validate GetPoolTradesResponse j) = true <->
     exists items, j = JArray items /\ forallb is_object items = true) /\
  (forall j,
     accepted (validate GetTokenPriceAllResponse j) = true <->
     exists d, j = JObject d /\
       forallb (fun kv => match snd kv with
                          | JNull => true
                          | x => accepted (validate Float x)
                          end) d = true) /\
  (forall j,
     accepted (validate Float j) =
       match j with
       | JFloat _ | JBool _ => true
       | JInt z => is_finite (float_of_int z)
       | JString s => match str_as_float s with Some _ => true | None => false end
       | _ => false
       end).
Proof.
  split; [|split; [|split; [|exact accepted_float]]]; intros j.
  - destruct j; simpl; split; try discriminate;
      try (intros [s0 H]; discriminate H).
    + intros _. exists s. reflexivity.
    + reflexivity.
  - unfold GetPoolTradesResponse, RootModel. rewrite accepted_list.
    destruct j; split; try discriminate; try (intros [xs [H _]]; discriminate H).
    + intros H. exists items. split; [reflexivity|].
      rewrite <- (forallb_pointwise _ _ items accepted_dict_any). exact H.
    + intros [xs [H Hall]]. injection H as ->.
      rewrite (forallb_pointwise _ _ xs accepted_dict_any). exact Hall.
  - unfold GetTokenPriceAllResponse, RootModel. rewrite accepted_dict.
    destruct j; split; try discriminate; try (intros [xs [H _]]; discriminate H).
    + intros H. exists items. split; [reflexivity|].
      rewrite forallb_forall in *. intros [k x] Hkv.
      specialize (H (k, x) Hkv). destruct x; exact H.
    + intros [xs [H Hall]]. injection H as ->.
      rewrite forallb_forall in *. intros [k x] Hkv.
      specialize (Hall (k, x) Hkv). destruct x; exact Hall.
Qed.

(** C8. A body without the optional key ([address] of a token, [epochId]
    of an epoch) whose required fields are accepted validates, and the
    value carries [None] for that field; and when such a body is
    rejected, no error is located at the optional field. *)
Theorem optional_fields_default_to_None :
  (forall d name symbol decimals,
     dict_get "address" d = None ->
     validate_field validate d (required "name" Str) = inr name ->
     validate_field validate d (required "symbol" Str) = inr symbol ->
     validate_field validate d (required "decimals" Int) = inr decimals ->
     validate TokenMetadata (JObject d) =
       inr (VModel [ ("address", VNone); ("name", name); ("symbol", symbol);
                     ("decimals", decimals) ])) /\
  (forall d begin_ end_,
     dict_get "epochId" d = None ->
     validate_field validate d (required "begin" Int) = inr begin_ ->
     validate_field validate d (required "end" Int) = inr end_ ->
     validate Epoch (JObject d) =
       inr (VModel [ ("begin", begin_); ("end", end_); ("epochId", VNone) ])) /\
  (forall d es rest e,
     dict_get "address" d = None ->
     validate TokenMetadata (JObject d) = inl es ->
     ~ In (Key "address" :: rest, e) es) /\
  (forall d es rest e,
     dict_get "epochId" d = None ->
     validate Epoch (JObject d) = inl es ->
     ~ In (Key "epochId" :: rest, e) es).
Proof.
  repeat split.
  - intros d name symbol decimals Ha Hn Hs Hd.
    unfold TokenMetadata. rewrite validate_model. cbn [validate_fields].
    rewrite Hn, Hs, Hd.
    rewrite (validate_field_default validate d
               (default_None "address" (Optional Str)) VNone Ha eq_refl).
    reflexivity.
  - intros d b e He Hb Hend.
    unfold Epoch. rewrite validate_model. cbn [validate_fields].
    rewrite Hb, Hend.
    rewrite (validate_field_default validate d
               (default_None "epochId" (Optional Int)) VNone He eq_refl).
    reflexivity.
  - intros d es rest e Ha H Hin.
    unfold TokenMetadata in H. rewrite validate_model in H. cbn [validate_fields] in H.
    rewrite (validate_field_default validate d
               (default_None "address" (Optional Str)) VNone Ha eq_refl) in H.
    rewrite both_inr_l in H.
    match type of H with
    | context [both ?f ?a ?b] => destruct (both f a b) as [es'|kvs] eqn:E
    end; [|discriminate].
    injection H as <-.
    change (validate_fields validate d
              [required "name" Str; required "symbol" Str; required "decimals" Int]
            = inl es') in E.
    destruct (validate_fields_errors validate d _ es' _ E Hin) as [f [r [Hf Hr]]].
    simpl in Hf, Hr.
    destruct Hf as [<-|[<-|[<-|[]]]]; discriminate Hr.
  - intros d es rest e He H Hin.
    unfold Epoch in H. rewrite validate_model in H.
    assert (Hagree : validate_fields validate d
              [required "begin" Int; required "end" Int;
               default_None "epochId" (Optional Int)] =
            match validate_fields validate d [required "begin" Int; required "end" Int] with
            | inr kvs => inr (kvs ++ [("epochId", VNone)])
            | inl es0 => inl es0
            end).
    { cbn [validate_fields].
      rewrite (validate_field_default validate d
                 (default_None "epochId" (Optional Int)) VNone He eq_refl).
      destruct (validate_field validate d (required "begin" Int));
        destruct (validate_field validate d (required "end" Int)); reflexivity. }
    rewrite Hagree in H.
    destruct (validate_fields validate d [required "begin" Int; required "end" Int])
      as [es'|kvs] eqn:E; [|discriminate].
    injection H as <-.
    destruct (validate_fields_errors validate d _ es' _ E Hin) as [f [r [Hf Hr]]].
    simpl in Hf, Hr.
    destruct Hf as [<-|[<-|[]]]; discriminate Hr.
Qed.

End ValidationProperties.

(** ** The epoch info tool *)

(** C9 (as amended). The epoch info tool issues one GET to
    [/epoch/{epoch_id}]; its model declares exactly the required fields
    [timestamp], [blocknumber] (all lower case) and [epochEnd], and a body
    with integers under these three keys validates. *)
Theorem epoch_info_request_and_fields {L : LaxStrings} (base : string) :
  (forall epoch_id up,
     requests (call_tool base (get_epoch_info epoch_id)) up =
       [GET (base ++ "/epoch/" ++ str_of_int epoch_id) []]) /\
  map field_name (model_fields GetEpochInfoResponse) =
    ["timestamp"; "blocknumber"; "epochEnd"] /\
  required_fields GetEpochInfoResponse = ["timestamp"; "blocknumber"; "epochEnd"] /\
  (forall d t b e,
     dict_get "timestamp" d = Some (JInt t) ->
     dict_get "blocknumber" d = Some (JInt b) ->
     dict_get "epochEnd" d = Some (JInt e) ->
     validate GetEpochInfoResponse (JObject d) =
       inr (VModel [ ("timestamp", VInt t); ("blocknumber", VInt b);
                     ("epochEnd", VInt e) ])).
Proof.
  repeat split.
  - intros epoch_id up. cbn [call_tool]. rewrite requests_returning.
    unfold_handler. apply one_get_requests. intros; apply finish_trace.
  - intros d t b e Ht Hb He.
    unfold GetEpochInfoResponse. rewrite validate_model.
    cbn [validate_fields]. unfold validate_field.
    cbn [field_name field_type field_default required fst snd].
    rewrite Ht, Hb, He. reflexivity.
Qed.

(** * Instances *)

(** ** The model run on small inputs *)

Example str_of_int_block : str_of_int 22844810 = "22844810".
Proof. reflexivity. Qed.

Example pool_metadata_accepted :
  validate (L := decimal_literals) PoolMetadata
    (JObject (("fee", JInt 3000) :: pool_without_fee)) =
    inr (VModel
           [ ("address", VStr "0xpool");
             ("token0", VModel [ ("address", VStr "0xweth"); ("name", VStr "Wrapped Ether");
                                 ("symbol", VStr "WETH"); ("decimals", VInt 18) ]);
             ("token1", VModel [ ("address", VNone); ("name", VStr "USD Coin");
                                 ("symbol", VStr "USDC"); ("decimals", VInt 6) ]);
             ("fee", VInt 3000); ("factory", VStr "0xfactory") ]).
Proof. reflexivity. Qed.

(** Errors are collected over the whole body, each under its path. *)
Example nested_errors_located :
  validate (L := decimal_literals) GetTokenPoolsResponse
    (JObject [("pools", JObject [("0xpool", JObject pool_without_fee)])]) =
    inl [([Key "pools"; Key "0xpool"; Key "fee"], missing)].
Proof. reflexivity. Qed.

Example ethprice_with_block :
  run (call_tool (L := decimal_literals) "https://bds-api.powerloom.io"
         (get_ethprice (Some 22844810%Z)))
      (fun _ => Failed "connection refused") =
    (inl (TransportError "connection refused"),
     [GET "https://bds-api.powerloom.io/ethPrice/22844810" []]).
Proof. reflexivity. Qed.

Example token_price_pool_empty_pool_address :
  run (call_tool (L := decimal_literals) "https://bds-api.powerloom.io"
         (get_token_price_pool "0xtoken" (Some "") (Some 22844810%Z)))
      (fun _ => Failed "connection refused") =
    (inl (ValueError "Either pool_address or block_number must be provided."), []).
Proof. reflexivity. Qed.

(** ** Inputs on which the hypotheses hold *)

Lemma non_2xx_raises_HTTPStatusError_witness :
  let response := mkResponse 404 "not found" None in
  let r := GET "https://bds-api.powerloom.io/pool/0xpool/metadata" [] in
  let up := always response in
  let c := get_pool_metadata "0xpool" in
  In r (requests (call_tool (L := decimal_literals) "https://bds-api.powerloom.io" c) up) /\
  up r = Responded response /\
  is_success response = false /\
  run (call_tool (L := decimal_literals) "https://bds-api.powerloom.io" c) up =
    (inl (HTTPStatusError response), [r]).
Proof.
  intros response r up c.
  assert (Hin : In r (requests
            (call_tool (L := decimal_literals) "https://bds-api.powerloom.io" c) up))
    by (left; reflexivity).
  split; [exact Hin | split; [reflexivity | split; [reflexivity|]]].
  exact (non_2xx_raises_HTTPStatusError (L := decimal_literals)
           "https://bds-api.powerloom.io" c up r response Hin eq_refl eq_refl).
Defined.

Lemma request_determined_by_arguments_and_base_url_witness :
  let environ1 := [] in
  let environ2 := [("HOME", "/root")] in
  let c := get_token_price_series "0xtoken" "0xpool" 86400 3600 in
  load_SNAPSHOTTER_CORE_API_URL environ1 = load_SNAPSHOTTER_CORE_API_URL environ2 /\
  requests (call_tool (L := decimal_literals) (load_SNAPSHOTTER_CORE_API_URL environ1) c)
           (always (mkResponse 200 "{}" (Some (JObject [])))) =
  requests (call_tool (L := decimal_literals) (load_SNAPSHOTTER_CORE_API_URL environ2) c)
           (fun _ => Failed "connection refused").
Proof.
  intros environ1 environ2 c. split; [reflexivity|].
  exact (request_determined_by_arguments_and_base_url (L := decimal_literals)
           environ1 environ2 c _ _ eq_refl).
Defined.


Lemma root_models_accept_witness :
  accepted (validate (L := decimal_literals) GetFinalizedCidForProjectIdEpochIdResponse
              (JString "bafkreiabc")) = true /\
  accepted (validate (L := decimal_literals) GetPoolTradesResponse
              (JArray [JObject [("tradeType", JString "Swap")]; JObject []])) = true /\
  accepted (validate (L := decimal_literals) GetTokenPriceAllResponse
              (JObject [("0xpool1", JInt 2); ("0xpool2", JNull)])) = true.
Proof.
  split; [|split].
  - apply (proj1 (root_models_accept (L := decimal_literals))).
    exists "bafkreiabc". reflexivity.
  - apply (proj1 (proj2 (root_models_accept (L := decimal_literals)))).
    eexists. split; reflexivity.
  - apply (proj1 (proj2 (proj2 (root_models_accept (L := decimal_literals))))).
    eexists. split; reflexivity.
Defined.

Lemma optional_fields_default_to_None_witness :
  (dict_get "address" usdc_without_address = None /\
   validate (L := decimal_literals) TokenMetadata (JObject usdc_without_address) =
     inr (VModel [ ("address", VNone); ("name", VStr "USD Coin");
                   ("symbol", VStr "USDC"); ("decimals", VInt 6) ])) /\
  (dict_get "epochId" [("begin", JInt 100); ("end", JInt 109)] = None /\
   validate (L := decimal_literals) Epoch (JObject [("begin", JInt 100); ("end", JInt 109)]) =
     inr (VModel [ ("begin", VInt 100); ("end", VInt 109); ("epochId", VNone) ])) /\
  (validate (L := decimal_literals) TokenMetadata (JObject [("name", JString "USD Coin")]) =
     inl [([Key "symbol"], missing); ([Key "decimals"], missing)] /\
   ~ In ([Key "address"], missing)
       [([Key "symbol"], missing); ([Key "decimals"], missing)]) /\
  (validate (L := decimal_literals) Epoch (JObject [("begin", JInt 100)]) =
     inl [([Key "end"], missing)] /\
   ~ In ([Key "epochId"], missing) [([Key "end"], missing)]).
Proof.
  pose proof (optional_fields_default_to_None (L := decimal_literals)) as [Ht [He [Hta Hea]]].
  split; [split; [reflexivity|] |].
  { exact (Ht usdc_without_address (VStr "USD Coin") (VStr "USDC") (VInt 6)
             eq_refl eq_refl eq_refl eq_refl). }
  split; [split; [reflexivity|] |].
  { exact (He [("begin", JInt 100); ("end", JInt 109)] (VInt 100) (VInt 109)
             eq_refl eq_refl eq_refl). }
  split; (split; [reflexivity|]).
  - exact (Hta [("name", JString "USD Coin")] _ [] missing eq_refl eq_refl).
  - exact (Hea [("begin", JInt 100)] _ [] missing eq_refl eq_refl).
Defined.

Lemma epoch_info_request_and_fields_witness :
  let d := [ ("timestamp", JInt 1751619178); ("blocknumber", JInt 22844810);
             ("epochEnd", JInt 22844819) ] in
  dict_get "timestamp" d = Some (JInt 1751619178) /\
  dict_get "blocknumber" d = Some (JInt 22844810) /\
  dict_get "epochEnd" d = Some (JInt 22844819) /\
  validate (L := decimal_literals) GetEpochInfoResponse (JObject d) =
    inr (VModel [ ("timestamp", VInt 1751619178); ("blocknumber", VInt 22844810);
                  ("epochEnd", VInt 22844819) ]).
Proof.
  intros d. split; [reflexivity | split; [reflexivity | split; [reflexivity|]]].
  exact (proj2 (proj2 (proj2
           (epoch_info_request_and_fields (L := decimal_literals)
              "https://bds-api.powerloom.io")))
           d _ _ _ eq_refl eq_refl eq_refl).
Defined.

(** ** Inputs on which the stated property fails *)

(** [[1]] is a bare JSON list, and the pool trades model rejects it;
    [true] is neither a number nor [null], and the token prices model
    accepts an object that holds it, reading it as [1.0]. *)
Lemma pool_trades_rejects_list_of_numbers :
  validate (L := decimal_literals) GetPoolTradesResponse (JArray [JInt 1]) =
    inl [([Index 0], dict_type)] /\
  validate (L := decimal_literals) GetTokenPriceAllResponse
    (JObject [("0xpool", JBool true)]) =
    inr (VDict [("0xpool", VFloat (float_of_int 1))]) /\
  ~ (accepted (validate (L := decimal_literals) GetPoolTradesResponse (JArray [JInt 1])) = true
     <-> exists items, JArray [JInt 1] = JArray items).
Proof.
  split; [reflexivity | split; [reflexivity|]].
  intros [_ H]. assert (Hex : exists items, JArray [JInt 1] = JArray items)
    by (eexists; reflexivity).
  specialize (H Hex). discriminate H.
Qed.

(** A body with integers under [timestamp], [blockNumber] and [epochEnd]
    is rejected by the epoch info model: [blocknumber] is missing. *)
Lemma epoch_info_rejects_blockNumber :
  validate (L := decimal_literals) GetEpochInfoResponse
    (JObject [ ("timestamp", JInt 1751619178); ("blockNumber", JInt 22844810);
               ("epochEnd", JInt 22844819) ]) =
    inl [([Key "blocknumber"], missing)].
Proof. reflexivity. Qed.

(** * Further properties *)

(** ** Numbers in URLs *)

Lemma to_int_not_nil (z : Z) :
  Z.to_int z <> Decimal.Pos Decimal.Nil /\ Z.to_int z <> Decimal.Neg Decimal.Nil.
Proof.
  destruct z; simpl; split; try discriminate;
    intros H; injection H as H; exact (DecimalPos.Unsigned.to_uint_nonnil _ H).
Qed.

(** [str] gives different integers different texts. *)
Lemma str_of_int_inj (z z' : Z) : str_of_int z = str_of_int z' -> z = z'.
Proof.
  unfold str_of_int. intros H.
  apply DecimalZ.to_int_inj.
  destruct (to_int_not_nil z) as [Hp Hn], (to_int_not_nil z') as [Hp' Hn'].
  pose proof (NilZero.isi _ Hp Hn) as E. rewrite H in E.
  rewrite (NilZero.isi _ Hp' Hn') in E. injection E as E. symmetry. exact E.
Qed.

(** ** Every way a tool call can end *)

Section CallOutcomes.

Context {L : LaxStrings}.
Variable SNAPSHOTTER_CORE_API_URL : string.

Local Abbreviation base := SNAPSHOTTER_CORE_API_URL.

(** What a handler makes of the response to its GET. *)
Local Abbreviation handled c response :=
  (if is_success response
   then match json response with
        | None => inl (ResponseJsonError (text response))
        | Some data =>
            match response_model c with
            | Some model =>
                match validate model data with
                | inr v => inr (Model v)
                | inl es => inl (ValidationError es)
                end
            | None => inr (Raw data)
            end
        end
   else inl (HTTPStatusError response)).

(** A call either raises [ValueError] at once (the pool price tool with no
    usable pool address) or issues one GET, fixed before the upstream is
    asked, and ends according to the answer. *)
Lemma call_tool_cases (c : ToolCall) :
  (exists t p b,
     c = get_token_price_pool t p b /\ truthy_str p = false /\
     forall up, run (call_tool base c) up =
       (inl (ValueError "Either pool_address or block_number must be provided."), [])) \/
  (exists u ps, forall up,
     run (call_tool base c) up =
       match up (GET u ps) with
       | Responded response => (handled c response, [GET u ps])
       | Failed reason => (inl (TransportError reason), [GET u ps])
       end).
Proof.
  destruct c; cbn [call_tool response_model]; unfold_handler;
    try (destruct (truthy_str pool_address) eqn:Hp; cbn [andb]);
    repeat match goal with
    | |- context [if ?b then _ else _] => destruct b
    end;
    try (left; do 3 eexists; split; [reflexivity | split; [exact Hp | reflexivity]]);
    right;
    match goal with
    | |- context [client_get ?u ?ps] => exists u, ps
    end;
    intros up; rewrite run_returning, run_get;
    (destruct (up _) as [response|reason]; [|reflexivity]);
    unfold bind, raise_for_status, response_json, model_validate, ret, raise;
    (destruct (is_success response); cbn [fst snd]; [|reflexivity]);
    (destruct (json response) as [data|]; cbn [fst snd]; [|reflexivity]);
    try reflexivity;
    match goal with
    | |- context [validate ?m data] => destruct (validate m data); reflexivity
    end.
Qed.

(** A transport failure (no connection, timeout) ends any tool call with
    [TransportError]; the request that failed is the only one issued. *)
Theorem transport_failure_propagates (c : ToolCall) (up : Upstream) (r : Request)
    (reason : string) :
  In r (requests (call_tool base c) up) ->
  up r = Failed reason ->
  run (call_tool base c) up = (inl (TransportError reason), [r]).
Proof.
  intros Hin Hup. unfold requests in Hin.
  destruct (call_tool_cases c) as [[t [p [b [_ [_ H]]]]] | [u [ps H]]];
    rewrite H in *.
  - destruct Hin.
  - destruct (up (GET u ps)) as [response|reason'] eqn:E;
      destruct Hin as [<-|[]]; rewrite E in Hup; [discriminate|].
    injection Hup as ->. reflexivity.
Qed.

(** No tool call issues more than one request, and the only calls that
    issue none are those of the pool price tool with [pool_address] left
    out or empty, which raise [ValueError]. *)
Theorem one_request_unless_pool_address_unusable (c : ToolCall) (up : Upstream) :
  (length (requests (call_tool base c) up) <= 1)%nat /\
  (requests (call_tool base c) up = [] <->
   exists t p b, c = get_token_price_pool t p b /\ truthy_str p = false) /\
  (requests (call_tool base c) up = [] ->
   result (call_tool base c) up =
     inl (ValueError "Either pool_address or block_number must be provided.")).
Proof.
  unfold requests, result.
  destruct (call_tool_cases c) as [[t [p [b [Hc [Hp H]]]]] | [u [ps H]]].
  - rewrite H. cbn [fst snd length]. split; [lia|]. split; [|reflexivity].
    split; [|reflexivity]. intros _. exists t, p, b. split; assumption.
  - assert (Hone : snd (run (call_tool base c) up) = [GET u ps])
      by (rewrite H; destruct (up (GET u ps)); reflexivity).
    rewrite Hone. cbn [length]. split; [lia|]. split; [|discriminate].
    split; [discriminate|].
    intros [t [p [b [-> Hp]]]]. exfalso.
    cbn [call_tool] in Hone. rewrite run_returning in Hone. cbn [snd] in Hone.
    unfold _get_token_price_pool in Hone. rewrite Hp in Hone. discriminate Hone.
Qed.

(** A tool call returns a value only when the upstream answered its one
    request with a 2xx status and a JSON body; the value is what the tool's
    model makes of that body, or the body itself for the pool price
    tool. *)
Theorem returned_value_provenance (c : ToolCall) (up : Upstream) (ret : Returned) :
  result (call_tool base c) up = inr ret ->
  exists r response data,
    requests (call_tool base c) up = [r] /\
    up r = Responded response /\
    is_success response = true /\
    json response = Some data /\
    match response_model c with
    | Some model => exists v, ret = Model v /\ validate model data = inr v
    | None => ret = Raw data
    end.
Proof.
  unfold requests, result.
  destruct (call_tool_cases c) as [[t [p [b [_ [_ H]]]]] | [u [ps H]]];
    rewrite H; cbn [fst snd]; [discriminate|].
  destruct (up (GET u ps)) as [response|reason] eqn:E; cbn [fst snd]; [|discriminate].
  destruct (is_success response) eqn:S; [|discriminate].
  destruct (json response) as [data|] eqn:J; [|discriminate].
  intros Hret. exists (GET u ps), response, data.
  repeat (split; [first [reflexivity | assumption]|]).
  destruct (response_model c) as [model|].
  - destruct (validate model data) as [es|v] eqn:V; [discriminate|].
    injection Hret as <-. exists v. split; reflexivity.
  - injection Hret as <-. reflexivity.
Qed.

(** A [ValidationError] comes from a tool that has a response model, and
    its lines are the ones the model gives for the decoded 2xx body; the
    pool price tool never raises one. *)
Theorem validation_error_provenance (c : ToolCall) (up : Upstream) (es : list LineError) :
  result (call_tool base c) up = inl (ValidationError es) ->
  exists r response data model,
    requests (call_tool base c) up = [r] /\
    up r = Responded response /\
    is_success response = true /\
    json response = Some data /\
    response_model c = Some model /\
    validate model data = inl es.
Proof.
  unfold requests, result.
  destruct (call_tool_cases c) as [[t [p [b [_ [_ H]]]]] | [u [ps H]]];
    rewrite H; cbn [fst snd]; [discriminate|].
  destruct (up (GET u ps)) as [response|reason] eqn:E; cbn [fst snd]; [|discriminate].
  destruct (is_success response) eqn:S; [|discriminate].
  destruct (json response) as [data|] eqn:J; [|discriminate].
  destruct (response_model c) as [model|]; [|discriminate].
  destruct (validate model data) as [es'|v] eqn:V; [|discriminate].
  intros Hret. injection Hret as <-.
  exists (GET u ps), response, data, model.
  repeat (split; [first [reflexivity | assumption]|]). exact V.
Qed.

(** On a 2xx answer the pool price tool returns the decoded body, whatever
    it is, and raises what [response.json()] raises when the body cannot
    be decoded. *)
Theorem token_price_pool_on_2xx (token_address : string) (pool_address : option string)
    (block_number : option Z) (up : Upstream) (r : Request) (response : Response) :
  In r (requests (call_tool base
                    (get_token_price_pool token_address pool_address block_number)) up) ->
  up r = Responded response ->
  is_success response = true ->
  run (call_tool base (get_token_price_pool token_address pool_address block_number)) up =
    (match json response with
     | Some data => inr (Raw data)
     | None => inl (ResponseJsonError (text response))
     end, [r]).
Proof.
  intros Hin Hup Hok. unfold requests in Hin.
  destruct (call_tool_cases (get_token_price_pool token_address pool_address block_number))
    as [[t [p [b [_ [_ H]]]]] | [u [ps H]]]; rewrite H in *.
  - destruct Hin.
  - destruct (up (GET u ps)) as [response'|reason] eqn:E;
      destruct Hin as [<-|[]]; rewrite E in Hup; [|discriminate].
    injection Hup as ->. rewrite Hok. cbn [response_model].
    destruct (json response); reflexivity.
Qed.

End CallOutcomes.

(** ** Which URL is requested *)

Section Urls.

Context {L : LaxStrings}.
Variable SNAPSHOTTER_CORE_API_URL : string.

Local Abbreviation base := SNAPSHOTTER_CORE_API_URL.

Local Abbreviation finish model response :=
  (raise_for_status response ;;
   data <- response_json response ;;
   model_validate model data).

(** The pool price tool, for every combination of its optional arguments:
    no request and [ValueError] when [pool_address] is left out or empty;
    else the short path when [block_number] is left out or [0], and the
    long path otherwise. *)
Theorem token_price_pool_decision_table (token_address : string)
    (pool_address : option string) (block_number : option Z) (up : Upstream) :
  requests (call_tool base (get_token_price_pool token_address pool_address block_number)) up =
    match pool_address with
    | None | Some EmptyString => []
    | Some pool =>
        match block_number with
        | None | Some 0%Z =>
            [GET (base ++ "/token/price/" ++ token_address ++ "/" ++ pool) []]
        | Some z =>
            [GET (base ++ "/token/price/" ++ token_address ++ "/" ++ pool ++ "/"
                    ++ str_of_int z) []]
        end
    end /\
  (match pool_address with None | Some EmptyString => True | Some _ => False end ->
   result (call_tool base (get_token_price_pool token_address pool_address block_number)) up =
     inl (ValueError "Either pool_address or block_number must be provided.")).
Proof.
  cbn [call_tool]. rewrite requests_returning. unfold _get_token_price_pool.
  destruct pool_address as [[|a pool]|]; cbn [truthy_str String.eqb negb andb fmt_str].
  - split; reflexivity.
  - split; [|intros []].
    destruct block_number as [[|z|z]|]; cbn [truthy_int Z.eqb negb fmt_int];
      apply one_get_requests; intros; apply raw_trace.
  - split; reflexivity.
Qed.

(** The tools with an optional block number, for every value of it. The
    eth price tool puts every supplied block number into the URL; the
    other four put it there unless it is [0], which they treat like a
    block number left out. *)
Theorem optional_block_decision_table (pool_address token_address : string)
    (block_number : option Z) (up : Upstream) :
  let with_block (prefix : string) : string :=
    match block_number with
    | None | Some 0%Z => prefix
    | Some z => (prefix ++ "/" ++ str_of_int z)%string
    end in
  requests (call_tool base (get_ethprice block_number)) up =
    [GET (match block_number with
          | None => base ++ "/ethPrice"
          | Some z => base ++ "/ethPrice/" ++ str_of_int z
          end) []] /\
  requests (call_tool base (get_base_snapshot pool_address block_number)) up =
    [GET (base ++ with_block ("/snapshot/base/" ++ pool_address)%string) []] /\
  requests (call_tool base (get_trades_snapshot pool_address block_number)) up =
    [GET (base ++ with_block ("/snapshot/trades/" ++ pool_address)%string) []] /\
  requests (call_tool base (get_all_trades_snapshot block_number)) up =
    [GET (base ++ with_block "/snapshot/allTrades") []] /\
  requests (call_tool base (get_token_price_all token_address block_number)) up =
    [GET (base ++ with_block ("/tokenPrices/all/" ++ token_address)%string) []].
Proof.
  intros with_block. subst with_block.
  assert (Happ : forall a b c : string, (a ++ b ++ c = (a ++ b) ++ c)%string).
  { intros a b c. induction a as [|x a IH]; simpl; [reflexivity | rewrite IH; reflexivity]. }
  split; [apply ethprice_url|].
  repeat split; cbn [call_tool]; rewrite requests_returning; unfold_handler;
    destruct block_number as [[|z|z]|]; cbn [truthy_int Z.eqb negb fmt_int];
    rewrite ?Happ;
    (rewrite one_get_requests; [|intros; apply finish_trace]);
    rewrite <- ?Happ; reflexivity.
Qed.

(** Two eth price calls issue the same request only when their block
    numbers are the same: no two block numbers, and no block number and
    its absence, share a URL. *)
Theorem ethprice_url_injective (b1 b2 : option Z) (up1 up2 : Upstream) :
  requests (call_tool base (get_ethprice b1)) up1 =
  requests (call_tool base (get_ethprice b2)) up2 ->
  b1 = b2.
Proof.
  rewrite !ethprice_url. intros H. injection H as H.
  destruct b1 as [z1|], b2 as [z2|]; apply append_inj_l in H.
  - injection H as H. apply str_of_int_inj in H. subst. reflexivity.
  - discriminate H.
  - discriminate H.
  - reflexivity.
Qed.

End Urls.

(** Every request goes below the base URL the module was loaded with: the
    value of [SNAPSHOTTER_CORE_API_URL] in the environment when it is set
    (the empty string included), [https://bds-api.powerloom.io] when it is
    not. Only the two pagination tools send parameters. *)
Theorem requests_below_base_url {L : LaxStrings} (environ : list (string * string))
    (c : ToolCall) (up : Upstream) (r : Request) :
  In r (requests (call_tool (load_SNAPSHOTTER_CORE_API_URL environ) c) up) ->
  (exists path,
     url r =
       (match dict_get "SNAPSHOTTER_CORE_API_URL" environ with
        | Some v => v
        | None => "https://bds-api.powerloom.io"
        end ++ String "/" path)%string) /\
  (params r <> [] ->
   exists page size metadata time_interval,
     c = get_daily_active_tokens page size metadata time_interval \/
     c = get_daily_active_pools page size metadata time_interval).
Proof.
  unfold load_SNAPSHOTTER_CORE_API_URL, os_getenv.
  set (base := match dict_get "SNAPSHOTTER_CORE_API_URL" environ with
               | Some v => v
               | None => "https://bds-api.powerloom.io"
               end).
  intros Hin.
  destruct c; cbn [call_tool] in Hin; rewrite requests_returning in Hin;
    unfold_handler;
    repeat match type of Hin with
    | context [if ?b then _ else _] => destruct b
    end;
    try (exfalso; exact Hin);
    (rewrite one_get_requests in Hin
       by (intros; first [apply finish_trace | apply raw_trace]));
    destruct Hin as [<-|[]]; cbn [url params];
    (split; [eexists; cbn [String.append]; reflexivity|]);
    intros Hp; try (exfalso; apply Hp; reflexivity);
    do 4 eexists; first [left; reflexivity | right; reflexivity].
Qed.

(** ** The command line *)

Section CommandLine.

Context {B : Builtins}.

Lemma is_flag_false (x : string) :
  is_flag x = false ->
  String.eqb x "--transport" = false /\
  String.eqb x "--host" = false /\
  String.eqb x "--port" = false.
Proof.
  unfold is_flag. intros H.
  apply orb_false_iff in H. destruct H as [H Hp].
  apply orb_false_iff in H. destruct H as [Ht Hh].
  repeat split; assumption.
Qed.

(** A single argument at the very end of the command line changes
    nothing, flag or not: a flag there has no value after it. *)
Lemma parse_args_last (last : list string) (o : Options) :
  (length last <= 1)%nat -> parse_args last o = inr o.
Proof.
  destruct last as [|x [|y l]]; simpl; intros H; [reflexivity | reflexivity | lia].
Qed.

Lemma parse_args_as_words (ws : list Word) (last : list string) (o : Options) :
  forallb well_formed ws = true ->
  (length last <= 1)%nat ->
  parse_args (flat_map word_args ws ++ last) o = apply_words ws o.
Proof.
  intros Hwf Hlast. revert o.
  induction ws as [|w ws IH]; intros o.
  - simpl. apply parse_args_last, Hlast.
  - simpl in Hwf. apply andb_true_iff in Hwf. destruct Hwf as [Hw Hwf].
    specialize (IH Hwf).
    destruct w as [f v|x].
    + destruct f; cbn [flat_map word_args flag_name app parse_args String.eqb
                        Ascii.eqb Bool.eqb andb apply_words apply_word].
      * apply IH.
      * apply IH.
      * destruct (int v); [apply IH | reflexivity].
    + cbn [flat_map word_args app apply_words apply_word].
      simpl in Hw. apply negb_true_iff in Hw.
      destruct (is_flag_false x Hw) as [Ht [Hh Hp]].
      remember (flat_map word_args ws ++ last) as rest eqn:Hrest.
      cbn [parse_args].
      destruct rest as [|v rest'].
      * apply IH.
      * rewrite Ht, Hh, Hp. apply IH.
Qed.

(** The argument loop reads a command line made of flag/value pairs and
    of single arguments that are no flags, with at most one more argument
    of any kind at the end, as the options applied from left to right: a
    value is never read as a flag, the other arguments are skipped, and
    the loop stops at the first [--port] value that [int] refuses. *)
Theorem parse_args_reads_words (ws : list Word) (last : list string) (o : Options) :
  forallb well_formed ws = true ->
  (length last <= 1)%nat ->
  parse_args (flat_map word_args ws ++ last) o = apply_words ws o.
Proof.
  exact (parse_args_as_words ws last o).
Qed.

(** An option that no later word sets keeps its value. *)
Lemma apply_words_keeps (ws : list Word) (o o' : Options) :
  apply_words ws o = inr o' ->
  ((forall v, ~ In (Opt Transport v) ws) -> transport o' = transport o) /\
  ((forall v, ~ In (Opt Host v) ws) -> host o' = host o) /\
  ((forall v, ~ In (Opt Port v) ws) -> port o' = port o).
Proof.
  revert o. induction ws as [|w ws IH]; intros o H.
  - injection H as <-. repeat split; reflexivity.
  - simpl in H. destruct (apply_word o w) as [e|o1] eqn:E; [discriminate|].
    destruct (IH o1 H) as [IHt [IHh IHp]].
    assert (Hrest : forall f, (forall v, ~ In (Opt f v) (w :: ws)) ->
                              forall v, ~ In (Opt f v) ws)
      by (intros f Hn v Hin; apply (Hn v); right; exact Hin).
    repeat split; intros Hn.
    + rewrite (IHt (Hrest _ Hn)).
      destruct w as [[| |] v|x]; simpl in E;
        try (exfalso; apply (Hn v); left; reflexivity);
        try (destruct (int v); [|discriminate]); injection E as <-; reflexivity.
    + rewrite (IHh (Hrest _ Hn)).
      destruct w as [[| |] v|x]; simpl in E;
        try (exfalso; apply (Hn v); left; reflexivity);
        try (destruct (int v); [|discriminate]); injection E as <-; reflexivity.
    + rewrite (IHp (Hrest _ Hn)).
      destruct w as [[| |] v|x]; simpl in E;
        try (exfalso; apply (Hn v); left; reflexivity);
        try (destruct (int v); [|discriminate]); injection E as <-; reflexivity.
Qed.

Lemma apply_words_app (ws1 ws2 : list Word) (o : Options) :
  apply_words (ws1 ++ ws2) o =
    match apply_words ws1 o with
    | inr o1 => apply_words ws2 o1
    | inl e => inl e
    end.
Proof.
  revert o. induction ws1 as [|w ws1 IH]; intros o; simpl; [reflexivity|].
  destruct (apply_word o w); [reflexivity | apply IH].
Qed.

(** When the arguments are read to the end, each option has the value of
    its last occurrence on the command line. *)
Theorem last_option_wins (ws1 ws2 : list Word) (f : Flag) (v : string)
    (last : list string) (o o' : Options) :
  forallb well_formed (ws1 ++ Opt f v :: ws2) = true ->
  (length last <= 1)%nat ->
  (forall v', ~ In (Opt f v') ws2) ->
  parse_args (flat_map word_args (ws1 ++ Opt f v :: ws2) ++ last) o = inr o' ->
  match f with
  | Transport => transport o' = v
  | Host => host o' = v
  | Port => int v = Some (port o')
  end.
Proof.
  intros Hwf Hlast Hno H.
  rewrite parse_args_as_words in H by assumption.
  rewrite apply_words_app in H.
  destruct (apply_words ws1 o) as [e|o1]; [discriminate|].
  cbn [apply_words] in H.
  destruct (apply_word o1 (Opt f v)) as [e|o2] eqn:E; [discriminate|].
  destruct (apply_words_keeps ws2 o2 o' H) as [Kt [Kh Kp]].
  destruct f; simpl in E.
  - injection E as <-. rewrite (Kt Hno). reflexivity.
  - injection E as <-. rewrite (Kh Hno). reflexivity.
  - destruct (int v) as [p|]; [|discriminate]. injection E as <-.
    rewrite (Kp Hno). reflexivity.
Qed.

(** Without a [--transport] option the script starts the STDIO transport,
    whatever [--host] and [--port] say. *)
Theorem no_transport_option_starts_stdio (prog : string) (ws : list Word)
    (last : list string) (s : Startup) :
  forallb well_formed ws = true ->
  (length last <= 1)%nat ->
  (forall v, ~ In (Opt Transport v) ws) ->
  main (prog :: flat_map word_args ws ++ last) = inr s ->
  s = mkStartup "Starting MCP server with STDIO transport" run_stdio.
Proof.
  intros Hwf Hlast Hno. unfold main. cbn [tl].
  rewrite parse_args_as_words by assumption.
  destruct (apply_words ws default_options) as [e|o] eqn:E; [discriminate|].
  intros H. injection H as <-.
  destruct (apply_words_keeps ws default_options o E) as [Kt _].
  unfold start. rewrite (Kt Hno). reflexivity.
Qed.

(** A [--port] value that [int] refuses stops the script with the
    [ValueError] of [int], before anything is started and whichever
    transport is asked for, the STDIO one included. *)
Theorem bad_port_stops_startup (prog : string) (ws : list Word) (last : list string)
    (v : string) :
  forallb well_formed ws = true ->
  (length last <= 1)%nat ->
  In (Opt Port v) ws ->
  int v = None ->
  exists v', int v' = None /\
    main (prog :: flat_map word_args ws ++ last) = inl (invalid_literal v').
Proof.
  intros Hwf Hlast Hin Hv. unfold main. cbn [tl].
  rewrite parse_args_as_words by assumption.
  clear Hwf Hlast. generalize default_options.
  induction ws as [|w ws IH]; intros o; [destruct Hin|].
  cbn [apply_words]. destruct Hin as [->|Hin].
  - exists v. split; [exact Hv|]. cbn [apply_word]. rewrite Hv. reflexivity.
  - destruct (apply_word o w) as [e|o1] eqn:E.
    + destruct w as [[| |] v1|x]; simpl in E; try discriminate.
      destruct (int v1) eqn:E1; [discriminate|]. injection E as <-.
      exists v1. split; [exact E1 | reflexivity].
    + apply (IH Hin).
Qed.

End CommandLine.

(** ** The pool price tests *)

(** Each of the two pool price tests passes exactly when the upstream
    answers the request of the test with a 2xx status and a body that
    decodes to a float; a body that decodes to an integer makes it fail
    on its assertion. *)
Theorem pool_price_tests_pass_iff (base : string) (up : Upstream) :
  let short :=
    GET (base ++ "/token/price/0xe0B7AD7F8F26e2b00C8b47b5Df370f15F90fCF48/"
              ++ "0x7E75b6876a9feE811EC67B55385BA5A1491D11f3") [] in
  let long :=
    GET (base ++ "/token/price/0xe0B7AD7F8F26e2b00C8b47b5Df370f15F90fCF48/"
              ++ "0x7E75b6876a9feE811EC67B55385BA5A1491D11f3/22844810") [] in
  (test_get_token_price_pool_no_block base up = passed <->
   exists response f,
     up short = Responded response /\ is_success response = true /\
     json response = Some (JFloat f)) /\
  (test_get_token_price_pool_with_block base up = passed <->
   exists response f,
     up long = Responded response /\ is_success response = true /\
     json response = Some (JFloat f)) /\
  (forall response z,
     up short = Responded response -> is_success response = true ->
     json response = Some (JInt z) ->
     test_get_token_price_pool_no_block base up = assertion_failed).
Proof.
  intros short long. subst short long.
  unfold test_get_token_price_pool_no_block, test_get_token_price_pool_with_block,
    result, _get_token_price_pool.
  cbn [truthy_str truthy_int String.eqb Ascii.eqb Bool.eqb Z.eqb negb andb
       fmt_str fmt_int].
  rewrite !run_get. cbn.
  split; [|split].
  - destruct (up _) as [response|reason]; cbn.
    + unfold bind, raise_for_status, response_json, ret, raise.
      destruct (is_success response) eqn:S; cbn.
      * destruct (json response) as [[]|] eqn:J; cbn; split;
          try discriminate;
          try (intros [r' [f' [Hr [_ Hj]]]]; injection Hr as <-;
               rewrite J in Hj; discriminate).
        -- intros _. exists response, f. repeat split; assumption.
        -- intros _. reflexivity.
      * split; [discriminate|].
        intros [r' [f' [Hr [Hs _]]]]. injection Hr as <-. rewrite S in Hs.
        discriminate.
    + split; [discriminate|]. intros [r' [f' [Hr _]]]. discriminate.
  - destruct (up _) as [response|reason]; cbn.
    + unfold bind, raise_for_status, response_json, ret, raise.
      destruct (is_success response) eqn:S; cbn.
      * destruct (json response) as [[]|] eqn:J; cbn; split;
          try discriminate;
          try (intros [r' [f' [Hr [_ Hj]]]]; injection Hr as <-;
               rewrite J in Hj; discriminate).
        -- intros _. exists response, f. repeat split; assumption.
        -- intros _. reflexivity.
      * split; [discriminate|].
        intros [r' [f' [Hr [Hs _]]]]. injection Hr as <-. rewrite S in Hs.
        discriminate.
    + split; [discriminate|]. intros [r' [f' [Hr _]]]. discriminate.
  - intros response z Hup Hs Hj. rewrite Hup. cbn.
    unfold bind, raise_for_status, response_json, ret, raise.
    rewrite Hs. cbn. rewrite Hj. reflexivity.
Qed.

(** ** More on validation *)

Section MoreValidation.

Context {L : LaxStrings}.

Lemma both_nonempty {A B C : Type} (f : A -> B -> C) (ra : Validated A) (rb : Validated B) :
  (forall es, ra = inl es -> es <> []) ->
  (forall es, rb = inl es -> es <> []) ->
  forall es, both f ra rb = inl es -> es <> [].
Proof.
  intros Ha Hb es H. destruct ra as [ea|a], rb as [eb|b]; simpl in H;
    try discriminate; injection H as <-.
  - intros E. apply app_eq_nil in E. destruct E as [E _]. exact (Ha ea eq_refl E).
  - exact (Ha ea eq_refl).
  - exact (Hb eb eq_refl).
Qed.

Lemma under_nonempty {A : Type} (i : LocItem) (r : Validated A) :
  (forall es, r = inl es -> es <> []) ->
  forall es, under i r = inl es -> es <> [].
Proof.
  intros Hr es H. destruct r as [e|a]; simpl in H; [|discriminate].
  injection H as <-. specialize (Hr e eq_refl).
  destruct e; [contradiction | discriminate].
Qed.

Lemma float_as_int_nonempty (f : spec_float) (es : list LineError) :
  float_as_int f = inl es -> es <> [].
Proof.
  unfold float_as_int, int_from_float_in_range, fail_here. intros H.
  destruct f as [s|s| |s m e]; try discriminate H;
    try (injection H as <-; discriminate);
    destruct e;
    repeat match type of H with
    | context [if ?b then _ else _] => destruct b
    end;
    try discriminate H; injection H as <-; discriminate.
Qed.

Lemma validate_items_nonempty (v : JSON -> Validated value) :
  (forall j es, v j = inl es -> es <> []) ->
  forall js i es, validate_items v i js = inl es -> es <> [].
Proof.
  intros Hv. induction js as [|x js IH]; intros i es E; simpl in E; [discriminate|].
  revert es E. apply both_nonempty.
  - apply under_nonempty. apply Hv.
  - apply IH.
Qed.

Lemma validate_entries_nonempty (v : JSON -> Validated value) :
  (forall j es, v j = inl es -> es <> []) ->
  forall d es, validate_entries v d = inl es -> es <> [].
Proof.
  intros Hv. induction d as [|[k x] d IH]; intros es E; simpl in E; [discriminate|].
  revert es E. apply both_nonempty.
  - apply under_nonempty. apply Hv.
  - apply IH.
Qed.

Lemma validate_fields_nonempty (v : ty -> JSON -> Validated value)
    (d : list (string * JSON)) (fs : list Field) :
  Forall (fun f => forall j es, v (field_type f) j = inl es -> es <> []) fs ->
  forall es, validate_fields v d fs = inl es -> es <> [].
Proof.
  induction 1 as [|f fs Hf _ IH]; intros es E; simpl in E; [discriminate|].
  revert es E. apply both_nonempty; [|exact IH].
  intros e He. unfold validate_field in He.
  destruct (dict_get (field_name f) d) as [x|].
  - revert e He. apply under_nonempty. apply Hf.
  - destruct (field_default f); [discriminate|]. injection He as <-. discriminate.
Qed.

(** A rejected body always comes with at least one error line. *)
Theorem validation_errors_nonempty (t : ty) (j : JSON) (es : list LineError) :
  validate t j = inl es -> es <> [].
Proof.
  revert j es. induction t as [ | | | | t IH | t IH | t IH | name fs IH] using ty_nested_ind;
    intros j es H.
  - destruct j; simpl in H; try discriminate H; injection H as <-; discriminate.
  - destruct j; simpl in H; try discriminate H; try (injection H as <-; discriminate).
    + destruct (float_as_int f) as [e|z] eqn:E; [|discriminate].
      injection H as <-. exact (float_as_int_nonempty f e E).
    + destruct (str_as_int s); [discriminate|]. injection H as <-. discriminate.
  - destruct j; simpl in H; try discriminate H; try (injection H as <-; discriminate).
    + destruct (is_finite (float_of_int z)); [discriminate|].
      injection H as <-. discriminate.
    + destruct (str_as_float s); [discriminate|]. injection H as <-. discriminate.
  - discriminate.
  - destruct j; simpl in H; try discriminate; exact (IH _ _ H).
  - destruct j; simpl in H; try discriminate H; try (injection H as <-; discriminate).
    destruct (validate_items (validate t) 0 items) as [e|xs] eqn:E; [|discriminate].
    injection H as <-. exact (validate_items_nonempty _ IH _ _ _ E).
  - destruct j; simpl in H; try discriminate H; try (injection H as <-; discriminate).
    destruct (validate_entries (validate t) items) as [e|xs] eqn:E; [|discriminate].
    injection H as <-. exact (validate_entries_nonempty _ IH _ _ E).
  - destruct j; try (simpl in H; injection H as <-; discriminate).
    rewrite validate_model in H.
    destruct (validate_fields validate items fs) as [e|kvs] eqn:E; [|discriminate].
    injection H as <-. exact (validate_fields_nonempty _ _ _ IH _ E).
Qed.

(** *** The shape of what a model returns *)

Lemma validate_fields_names (v : ty -> JSON -> Validated value)
    (d : list (string * JSON)) (fs : list Field) (kvs : list (string * value)) :
  validate_fields v d fs = inr kvs -> map fst kvs = map field_name fs.
Proof.
  revert kvs. induction fs as [|f fs IH]; intros kvs H; simpl in H.
  - injection H as <-. reflexivity.
  - destruct (validate_field v d f) as [e|x];
      destruct (validate_fields v d fs) as [e'|kvs']; simpl in H; try discriminate.
    injection H as <-. simpl. rewrite (IH kvs' eq_refl). reflexivity.
Qed.

(** A body accepted by a model is an object, and the value holds the
    declared fields, all of them and no other, in the order of the class:
    undeclared keys of the body are dropped and absent fields with a
    default are filled in. *)
Theorem validated_model_fields (name : string) (fs : list Field) (j : JSON) (v : value) :
  validate (BaseModel name fs) j = inr v ->
  is_object j = true /\
  exists kvs, v = VModel kvs /\ map fst kvs = map field_name fs.
Proof.
  intros H. destruct j; try discriminate H.
  rewrite validate_model in H.
  destruct (validate_fields validate items fs) as [e|kvs] eqn:E; [discriminate|].
  injection H as <-. split; [reflexivity|].
  exists kvs. split; [reflexivity | exact (validate_fields_names _ _ _ _ E)].
Qed.

(** A body rejected by a model is either not an object, with the single
    error [model_type] at the root, or an object, with every error located
    below one of the declared fields. *)
Theorem model_errors_located (name : string) (fs : list Field) (j : JSON)
    (es : list LineError) :
  validate (BaseModel name fs) j = inl es ->
  (is_object j = false /\ es = [([], model_type)]) \/
  (is_object j = true /\
   forall e, In e es -> exists f rest, In f fs /\ fst e = Key (field_name f) :: rest).
Proof.
  intros H. destruct j; try (left; injection H as <-; split; reflexivity).
  right. split; [reflexivity|]. rewrite validate_model in H.
  destruct (validate_fields validate items fs) as [e|kvs] eqn:E; [|discriminate].
  injection H as <-. intros e0 Hin.
  exact (validate_fields_errors validate items fs e e0 E Hin).
Qed.

(** *** Lists and dicts *)

Lemma validate_items_length (v : JSON -> Validated value) (js : list JSON) (i : nat)
    (xs : list value) :
  validate_items v i js = inr xs -> length xs = length js.
Proof.
  revert i xs. induction js as [|x js IH]; intros i xs H; simpl in H.
  - injection H as <-. reflexivity.
  - destruct (v x) as [e|y]; destruct (validate_items v (S i) js) as [e'|ys] eqn:E;
      simpl in H; try discriminate.
    injection H as <-. simpl. rewrite (IH _ _ E). reflexivity.
Qed.

Lemma validate_items_indices (v : JSON -> Validated value) (js : list JSON) (i : nat)
    (es : list LineError) (e : LineError) :
  validate_items v i js = inl es -> In e es ->
  exists k rest, fst e = Index k :: rest /\ (i <= k < i + length js)%nat.
Proof.
  revert i es. induction js as [|x js IH]; intros i es H Hin; simpl in H; [discriminate|].
  assert (Hhead : forall e1, v x = inl e1 -> In e (at_loc (Index i) e1) ->
            exists k rest, fst e = Index k :: rest /\ (i <= k < i + length (x :: js))%nat).
  { intros e1 _ He. unfold at_loc in He. apply in_map_iff in He.
    destruct He as [e0 [<- _]]. exists i, (fst e0). simpl. split; [reflexivity | lia]. }
  assert (Htail : forall e2, validate_items v (S i) js = inl e2 -> In e e2 ->
            exists k rest, fst e = Index k :: rest /\ (i <= k < i + length (x :: js))%nat).
  { intros e2 E He. destruct (IH _ _ E He) as [k [rest [Hk Hb]]].
    exists k, rest. simpl. split; [exact Hk | lia]. }
  destruct (v x) as [e1|y]; destruct (validate_items v (S i) js) as [e2|ys];
    simpl in H; try discriminate; injection H as <-.
  - apply in_app_or in Hin. destruct Hin as [Hin|Hin];
      [exact (Hhead e1 eq_refl Hin) | exact (Htail e2 eq_refl Hin)].
  - exact (Hhead e1 eq_refl Hin).
  - exact (Htail e2 eq_refl Hin).
Qed.

Lemma validate_entries_keys (v : JSON -> Validated value) (d : list (string * JSON))
    (kvs : list (string * value)) :
  validate_entries v d = inr kvs -> map fst kvs = map fst d.
Proof.
  revert kvs. induction d as [|[k x] d IH]; intros kvs H; simpl in H.
  - injection H as <-. reflexivity.
  - destruct (v x) as [e|y]; destruct (validate_entries v d) as [e'|ys] eqn:E;
      simpl in H; try discriminate.
    injection H as <-. simpl. rewrite (IH _ eq_refl). reflexivity.
Qed.

Lemma validate_entries_error_keys (v : JSON -> Validated value) (d : list (string * JSON))
    (es : list LineError) (e : LineError) :
  validate_entries v d = inl es -> In e es ->
  exists k rest, fst e = Key k :: rest /\ In k (map fst d).
Proof.
  revert es. induction d as [|[k x] d IH]; intros es H Hin; simpl in H; [discriminate|].
  assert (Hhead : forall e1, In e (at_loc (Key k) e1) ->
            exists k' rest, fst e = Key k' :: rest /\ In k' (map fst ((k, x) :: d))).
  { intros e1 He. unfold at_loc in He. apply in_map_iff in He.
    destruct He as [e0 [<- _]]. exists k, (fst e0). split; [reflexivity | left; reflexivity]. }
  assert (Htail : forall e2, validate_entries v d = inl e2 -> In e e2 ->
            exists k' rest, fst e = Key k' :: rest /\ In k' (map fst ((k, x) :: d))).
  { intros e2 E He. destruct (IH _ E He) as [k' [rest [Hk Hb]]].
    exists k', rest. split; [exact Hk | right; exact Hb]. }
  destruct (v x) as [e1|y]; destruct (validate_entries v d) as [e2|ys];
    simpl in H; try discriminate; injection H as <-.
  - apply in_app_or in Hin. destruct Hin as [Hin|Hin];
      [exact (Hhead e1 Hin) | exact (Htail e2 eq_refl Hin)].
  - exact (Hhead e1 Hin).
  - exact (Htail e2 eq_refl Hin).
Qed.

(** A list is validated item by item and a dict value by value: an
    accepted list keeps its length and an accepted dict its keys, in
    order; every error of a rejected list is located at an index within
    the list, and every error of a rejected dict at one of its keys. *)
Theorem containers_keep_shape (t : ty) :
  (forall js v, validate (List_ t) (JArray js) = inr v ->
     exists xs, v = VList xs /\ length xs = length js) /\
  (forall js es e, validate (List_ t) (JArray js) = inl es -> In e es ->
     exists k rest, fst e = Index k :: rest /\ (k < length js)%nat) /\
  (forall d v, validate (Dict t) (JObject d) = inr v ->
     exists kvs, v = VDict kvs /\ map fst kvs = map fst d) /\
  (forall d es e, validate (Dict t) (JObject d) = inl es -> In e es ->
     exists k rest, fst e = Key k :: rest /\ In k (map fst d)).
Proof.
  repeat split.
  - intros js v H. simpl in H.
    destruct (validate_items (validate t) 0 js) as [e|xs] eqn:E; [discriminate|].
    injection H as <-. exists xs. split; [reflexivity|].
    exact (validate_items_length _ _ _ _ E).
  - intros js es e H Hin. simpl in H.
    destruct (validate_items (validate t) 0 js) as [e'|xs] eqn:E; [|discriminate].
    injection H as <-.
    destruct (validate_items_indices _ _ _ _ _ E Hin) as [k [rest [Hk Hb]]].
    exists k, rest. split; [exact Hk | lia].
  - intros d v H. simpl in H.
    destruct (validate_entries (validate t) d) as [e|kvs] eqn:E; [discriminate|].
    injection H as <-. exists kvs. split; [reflexivity|].
    exact (validate_entries_keys _ _ _ E).
  - intros d es e H Hin. simpl in H.
    destruct (validate_entries (validate t) d) as [e'|kvs] eqn:E; [|discriminate].
    injection H as <-. exact (validate_entries_error_keys _ _ _ _ E Hin).
Qed.

(** The token base snapshots response accepts exactly the objects, and
    hands every value back as it came. *)
Theorem token_base_snapshots_untyped (j : JSON) :
  validate GetTokenBaseSnapshotsResponse j =
    match j with
    | JObject d => inr (VDict (map (fun kv => (fst kv, VAny (snd kv))) d))
    | _ => inl [([], dict_type)]
    end.
Proof.
  destruct j; try reflexivity.
  unfold GetTokenBaseSnapshotsResponse, RootModel.
  assert (H : validate_entries (validate Any) items =
              inr (map (fun kv => (fst kv, VAny (snd kv))) items)).
  { induction items as [|[k x] d IH]; [reflexivity|].
    cbn [validate_entries map]. rewrite IH. reflexivity. }
  change (validate (Dict Any) (JObject items)) with
    (match validate_entries (validate Any) items with
     | inr kvs => inr (VDict kvs)
     | inl es => @inl (list LineError) value es
     end).
  rewrite H. reflexivity.
Qed.

(** *** The body as a dict *)

Lemma dict_get_permutation {A : Type} (k : string) (d d' : list (string * A)) :
  NoDup (map fst d) -> Permutation d d' -> dict_get k d = dict_get k d'.
Proof.
  intros Hnd Hp.
  induction Hp as [| [k1 v1] l l' Hp IH | [k1 v1] [k2 v2] l | l l' l'' Hp1 IH1 Hp2 IH2].
  - reflexivity.
  - simpl. inversion Hnd as [|? ? _ Hnd']; subst. rewrite (IH Hnd'). reflexivity.
  - simpl. inversion Hnd as [|? ? Hnotin _]; subst.
    destruct (String.eqb_spec k k2) as [->|H2]; [|reflexivity].
    destruct (String.eqb_spec k2 k1) as [->|H1]; [|reflexivity].
    exfalso. apply Hnotin. left. reflexivity.
  - rewrite (IH1 Hnd). apply IH2.
    apply (Permutation_NoDup (Permutation_map fst Hp1) Hnd).
Qed.

(** The order in which the keys of the body come plays no part: two
    bodies with the same items in different orders get the same outcome
    from every model. *)
Theorem validate_order_independent (name : string) (fs : list Field)
    (d d' : list (string * JSON)) :
  NoDup (map fst d) ->
  Permutation d d' ->
  validate (BaseModel name fs) (JObject d') = validate (BaseModel name fs) (JObject d).
Proof.
  intros Hnd Hp. rewrite !validate_model.
  rewrite (validate_fields_agree validate d d' fs); [reflexivity|].
  intros f _. symmetry. apply dict_get_permutation; assumption.
Qed.

(** For a field declared [Optional[...] = None], sending [null] is the
    same as leaving the key out: both give [None], and nothing else about
    the outcome changes. *)
Theorem explicit_null_same_as_absent (name : string) (fs : list Field)
    (d1 d2 : list (string * JSON)) (n : string) :
  (forall f, In f fs -> field_name f = n ->
     field_default f = Some VNone /\ exists t, field_type f = Optional t) ->
  dict_get n (d1 ++ d2) = None ->
  validate (BaseModel name fs) (JObject (d1 ++ (n, JNull) :: d2)) =
  validate (BaseModel name fs) (JObject (d1 ++ d2)).
Proof.
  intros Hopt Habs. rewrite !validate_model.
  assert (Hget : dict_get n (d1 ++ (n, JNull) :: d2) = Some JNull).
  { clear Hopt. induction d1 as [|[k x] d1 IH]; simpl in *.
    - rewrite String.eqb_refl. reflexivity.
    - destruct (String.eqb n k); [discriminate | exact (IH Habs)]. }
  assert (Hfs : validate_fields validate (d1 ++ (n, JNull) :: d2) fs =
                validate_fields validate (d1 ++ d2) fs).
  { induction fs as [|f fs IH]; simpl; [reflexivity|].
    rewrite IH by (intros g Hg; apply Hopt; right; exact Hg).
    f_equal. unfold validate_field.
    destruct (String.eqb_spec (field_name f) n) as [E|E].
    - destruct (Hopt f (or_introl eq_refl) E) as [Hd [t Ht]].
      rewrite E, Hget, Habs, Hd, Ht. reflexivity.
    - rewrite (dict_get_insert _ _ _ _ _ E). reflexivity. }
  rewrite Hfs. reflexivity.
Qed.

End MoreValidation.

(** ** More inputs on which the hypotheses hold *)

Lemma validated_on_2xx_witness :
  let base := "https://bds-api.powerloom.io" in
  let response := mkResponse 200 "{}" (Some (JObject [])) in
  let r := GET "https://bds-api.powerloom.io/health" [] in
  response_model health_check = Some HealthCheckResponse /\
  In r (requests (call_tool (L := decimal_literals) base health_check) (always response)) /\
  always response r = Responded response /\
  is_success response = true /\
  run (call_tool (L := decimal_literals) base health_check) (always response) =
    (inl (ValidationError [([Key "status"], missing)]), [r]).
Proof.
  intros base response r.
  assert (Hin : In r (requests (call_tool (L := decimal_literals) base health_check)
                        (always response))) by (left; reflexivity).
  split; [reflexivity | split; [exact Hin | split; [reflexivity | split; [reflexivity|]]]].
  exact (validated_on_2xx (L := decimal_literals) base health_check HealthCheckResponse
           (always response) r response eq_refl Hin eq_refl eq_refl).
Defined.

Lemma transport_failure_propagates_witness :
  let base := "https://bds-api.powerloom.io" in
  let up : Upstream := fun _ => Failed "timed out" in
  let r := GET "https://bds-api.powerloom.io/current_epoch" [] in
  In r (requests (call_tool (L := decimal_literals) base get_current_epoch_data) up) /\
  up r = Failed "timed out" /\
  run (call_tool (L := decimal_literals) base get_current_epoch_data) up =
    (inl (TransportError "timed out"), [r]).
Proof.
  intros base up r.
  assert (Hin : In r (requests (call_tool (L := decimal_literals) base
                                  get_current_epoch_data) up)) by (left; reflexivity).
  split; [exact Hin | split; [reflexivity|]].
  exact (transport_failure_propagates (L := decimal_literals) base get_current_epoch_data
           up r "timed out" Hin eq_refl).
Defined.

Lemma one_request_unless_pool_address_unusable_witness :
  let c := get_token_price_pool "0xtoken" (Some "") (Some 22844810%Z) in
  let up := always (mkResponse 200 "1.5" None) in
  requests (call_tool (L := decimal_literals) "https://bds-api.powerloom.io" c) up = [] /\
  result (call_tool (L := decimal_literals) "https://bds-api.powerloom.io" c) up =
    inl (ValueError "Either pool_address or block_number must be provided.").
Proof.
  intros c up.
  assert (Hno : requests (call_tool (L := decimal_literals)
                            "https://bds-api.powerloom.io" c) up = []) by reflexivity.
  split; [exact Hno|].
  exact (proj2 (proj2 (one_request_unless_pool_address_unusable (L := decimal_literals)
                         "https://bds-api.powerloom.io" c up)) Hno).
Defined.

Lemma returned_value_provenance_witness :
  let base := "https://bds-api.powerloom.io" in
  let c := get_finalized_cid_for_project_id_epoch_id "p" 7 in
  let up := always (mkResponse 200 "bafkrei" (Some (JString "bafkrei"))) in
  result (call_tool (L := decimal_literals) base c) up = inr (Model (VStr "bafkrei")) /\
  exists r response data,
    requests (call_tool (L := decimal_literals) base c) up = [r] /\
    up r = Responded response /\
    is_success response = true /\
    json response = Some data /\
    match response_model c with
    | Some model =>
        exists v, Model (VStr "bafkrei") = Model v /\
                  validate (L := decimal_literals) model data = inr v
    | None => Model (VStr "bafkrei") = Raw data
    end.
Proof.
  intros base c up. split; [reflexivity|].
  exact (returned_value_provenance (L := decimal_literals) base c up
           (Model (VStr "bafkrei")) eq_refl).
Defined.

Lemma validation_error_provenance_witness :
  let base := "https://bds-api.powerloom.io" in
  let up := always (mkResponse 200 "{}" (Some (JObject []))) in
  result (call_tool (L := decimal_literals) base health_check) up =
    inl (ValidationError [([Key "status"], missing)]) /\
  exists r response data model,
    requests (call_tool (L := decimal_literals) base health_check) up = [r] /\
    up r = Responded response /\
    is_success response = true /\
    json response = Some data /\
    response_model health_check = Some model /\
    validate (L := decimal_literals) model data = inl [([Key "status"], missing)].
Proof.
  intros base up. split; [reflexivity|].
  exact (validation_error_provenance (L := decimal_literals) base health_check up
           [([Key "status"], missing)] eq_refl).
Defined.

Lemma token_price_pool_on_2xx_witness :
  let base := "https://bds-api.powerloom.io" in
  let response := mkResponse 200 "[1, 2]" (Some (JArray [JInt 1; JInt 2])) in
  let c := get_token_price_pool "0xtoken" (Some "0xpool") None in
  let r := GET "https://bds-api.powerloom.io/token/price/0xtoken/0xpool" [] in
  In r (requests (call_tool (L := decimal_literals) base c) (always response)) /\
  always response r = Responded response /\
  is_success response = true /\
  run (call_tool (L := decimal_literals) base c) (always response) =
    (inr (Raw (JArray [JInt 1; JInt 2])), [r]).
Proof.
  intros base response c r.
  assert (Hin : In r (requests (call_tool (L := decimal_literals) base c) (always response)))
    by (left; reflexivity).
  split; [exact Hin | split; [reflexivity | split; [reflexivity|]]].
  exact (token_price_pool_on_2xx (L := decimal_literals) base "0xtoken" (Some "0xpool") None
           (always response) r response Hin eq_refl eq_refl).
Defined.

Lemma token_price_pool_decision_table_witness :
  result (call_tool (L := decimal_literals) "https://bds-api.powerloom.io"
            (get_token_price_pool "0xtoken" None (Some 22844810%Z)))
         (always (mkResponse 200 "1.5" None)) =
    inl (ValueError "Either pool_address or block_number must be provided.").
Proof.
  exact (proj2 (token_price_pool_decision_table (L := decimal_literals)
                  "https://bds-api.powerloom.io" "0xtoken" None (Some 22844810%Z)
                  (always (mkResponse 200 "1.5" None))) I).
Defined.

Lemma ethprice_url_injective_witness :
  let base := "https://bds-api.powerloom.io" in
  requests (call_tool (L := decimal_literals) base (get_ethprice (Some 0%Z)))
           (always (mkResponse 200 "{}" None)) =
  requests (call_tool (L := decimal_literals) base (get_ethprice (Some 0%Z)))
           (fun _ => Failed "timed out") /\
  Some 0%Z = Some 0%Z.
Proof.
  intros base. split; [reflexivity|].
  exact (ethprice_url_injective (L := decimal_literals) base (Some 0%Z) (Some 0%Z)
           (always (mkResponse 200 "{}" None)) (fun _ => Failed "timed out") eq_refl).
Defined.

Lemma requests_below_base_url_witness :
  let environ := [("SNAPSHOTTER_CORE_API_URL", "http://localhost:8002")] in
  let c := get_daily_active_tokens None (Some 10%Z) (Some true) None in
  let up : Upstream := fun _ => Failed "timed out" in
  let r := GET "http://localhost:8002/dailyActiveTokens"
             [ ("page", PInt 1); ("size", PInt 10); ("metadata", PBool true);
               ("time_interval", PInt 86400) ] in
  In r (requests (call_tool (L := decimal_literals)
                    (load_SNAPSHOTTER_CORE_API_URL environ) c) up) /\
  exists path, url r = ("http://localhost:8002" ++ String "/" path)%string.
Proof.
  intros environ c up r.
  assert (Hin : In r (requests (call_tool (L := decimal_literals)
                                  (load_SNAPSHOTTER_CORE_API_URL environ) c) up))
    by (left; reflexivity).
  split; [exact Hin|].
  exact (proj1 (requests_below_base_url (L := decimal_literals) environ c up r Hin)).
Defined.

Lemma parse_args_reads_words_witness :
  let ws := [Opt Host "--port"; Stray "9000"; Opt Transport "http"; Opt Port "8080"] in
  forallb well_formed ws = true /\
  (length ["--host"] <= 1)%nat /\
  parse_args (B := decimal_int)
    ["--host"; "--port"; "9000"; "--transport"; "http"; "--port"; "8080"; "--host"]
    default_options =
    inr (mkOptions "http" "--port" 8080).
Proof.
  intros ws. split; [reflexivity | split; [apply le_n|]].
  exact (parse_args_reads_words (B := decimal_int) ws ["--host"] default_options
           eq_refl (le_n 1)).
Defined.

Lemma last_option_wins_witness :
  let ws1 := [Opt Port "8080"; Opt Transport "sse"] in
  let ws2 := [Opt Host "0.0.0.0"] in
  forallb well_formed (ws1 ++ Opt Port "9000" :: ws2) = true /\
  (length (@nil string) <= 1)%nat /\
  (forall v', ~ In (Opt Port v') ws2) /\
  parse_args (B := decimal_int)
    (flat_map word_args (ws1 ++ Opt Port "9000" :: ws2) ++ []) default_options =
    inr (mkOptions "sse" "0.0.0.0" 9000) /\
  int (Builtins := decimal_int) "9000" = Some 9000%Z.
Proof.
  intros ws1 ws2.
  assert (Hno : forall v', ~ In (Opt Port v') ws2).
  { intros v' [H|[]]. discriminate H. }
  split; [reflexivity | split; [apply le_S, le_n | split; [exact Hno | split; [reflexivity|]]]].
  exact (last_option_wins (B := decimal_int) ws1 ws2 Port "9000" [] default_options
           (mkOptions "sse" "0.0.0.0" 9000) eq_refl (le_S _ _ (le_n 0)) Hno eq_refl).
Defined.

Lemma no_transport_option_starts_stdio_witness :
  let ws := [Opt Host "0.0.0.0"; Opt Port "9000"] in
  let s := start (mkOptions "stdio" "0.0.0.0" 9000) in
  forallb well_formed ws = true /\
  (length ["--transport"] <= 1)%nat /\
  (forall v, ~ In (Opt Transport v) ws) /\
  main (B := decimal_int) ("main.py" :: flat_map word_args ws ++ ["--transport"]) = inr s /\
  s = mkStartup "Starting MCP server with STDIO transport" run_stdio.
Proof.
  intros ws s.
  assert (Hno : forall v, ~ In (Opt Transport v) ws).
  { intros v [H|[H|[]]]; discriminate H. }
  split; [reflexivity | split; [apply le_n | split; [exact Hno | split; [reflexivity|]]]].
  exact (no_transport_option_starts_stdio (B := decimal_int) "main.py" ws ["--transport"]
           s eq_refl (le_n 1) Hno eq_refl).
Defined.

Lemma bad_port_stops_startup_witness :
  let ws := [Opt Host "0.0.0.0"; Opt Port "eighty"] in
  forallb well_formed ws = true /\
  (length (@nil string) <= 1)%nat /\
  In (Opt Port "eighty") ws /\
  int (Builtins := decimal_int) "eighty" = None /\
  exists v', int (Builtins := decimal_int) v' = None /\
    main (B := decimal_int) ("main.py" :: flat_map word_args ws ++ []) =
      inl (invalid_literal v').
Proof.
  intros ws.
  assert (Hin : In (Opt Port "eighty") ws) by (right; left; reflexivity).
  split; [reflexivity | split; [apply le_S, le_n | split; [exact Hin | split; [reflexivity|]]]].
  exact (bad_port_stops_startup (B := decimal_int) "main.py" ws [] "eighty"
           eq_refl (le_S _ _ (le_n 0)) Hin eq_refl).
Defined.

Lemma pool_price_tests_pass_iff_witness :
  let base := "https://bds-api.powerloom.io" in
  let response := mkResponse 200 "1" (Some (JInt 1)) in
  always response
    (GET (base ++ "/token/price/0xe0B7AD7F8F26e2b00C8b47b5Df370f15F90fCF48/"
               ++ "0x7E75b6876a9feE811EC67B55385BA5A1491D11f3") []) =
    Responded response /\
  is_success response = true /\
  json response = Some (JInt 1) /\
  test_get_token_price_pool_no_block base (always response) =
    assertion_failed.
Proof.
  intros base response.
  split; [reflexivity | split; [reflexivity | split; [reflexivity|]]].
  exact (proj2 (proj2 (pool_price_tests_pass_iff base (always response)))
           response 1%Z eq_refl eq_refl eq_refl).
Defined.

Lemma validation_errors_nonempty_witness :
  validate (L := decimal_literals) PoolMetadata (JObject pool_without_fee) =
    inl [([Key "fee"], missing)] /\
  [([Key "fee"], missing)] <> [].
Proof.
  split; [reflexivity|].
  exact (validation_errors_nonempty (L := decimal_literals) PoolMetadata
           (JObject pool_without_fee) [([Key "fee"], missing)] eq_refl).
Defined.

Lemma validated_model_fields_witness :
  let body := JObject (("tvl", JInt 1) :: usdc_without_address) in
  let v := VModel [ ("address", VNone); ("name", VStr "USD Coin");
                    ("symbol", VStr "USDC"); ("decimals", VInt 6) ] in
  validate (L := decimal_literals) TokenMetadata body = inr v /\
  is_object body = true /\
  exists kvs, v = VModel kvs /\
    map fst kvs = map field_name (model_fields TokenMetadata).
Proof.
  intros body v. split; [reflexivity|].
  exact (validated_model_fields (L := decimal_literals) "TokenMetadata"
           (model_fields TokenMetadata) body v eq_refl).
Defined.

Lemma model_errors_located_witness :
  let es := [([Key "token0"], model_type); ([Key "token1"; Key "decimals"], int_type)] in
  let body := JObject [ ("address", JString "0xpool"); ("token0", JString "0xweth");
                        ("token1", JObject [ ("name", JString "USD Coin");
                                             ("symbol", JString "USDC");
                                             ("decimals", JNull) ]);
                        ("fee", JInt 500); ("factory", JString "0xfactory") ] in
  validate (L := decimal_literals) PoolMetadata body = inl es /\
  ((is_object body = false /\ es = [([], model_type)]) \/
   (is_object body = true /\
    forall e, In e es ->
      exists f rest, In f (model_fields PoolMetadata) /\
                     fst e = Key (field_name f) :: rest)).
Proof.
  intros es body. split; [reflexivity|].
  exact (model_errors_located (L := decimal_literals) "PoolMetadata"
           (model_fields PoolMetadata) body es eq_refl).
Defined.

Lemma containers_keep_shape_witness :
  let js := [JString "0xa"; JInt 1; JString "0xb"; JNull] in
  let es := [([Index 1], string_type); ([Index 3], string_type)] in
  validate (L := decimal_literals) (List_ Str) (JArray js) = inl es /\
  In ([Index 3], string_type) es /\
  exists k rest, fst ([Index 3], string_type) = Index k :: rest /\ (k < length js)%nat.
Proof.
  intros js es.
  assert (Hin : In ([Index 3], string_type) es) by (right; left; reflexivity).
  split; [reflexivity | split; [exact Hin|]].
  exact (proj1 (proj2 (containers_keep_shape (L := decimal_literals) Str))
           js es ([Index 3], string_type) eq_refl Hin).
Defined.

Lemma validate_order_independent_witness :
  let d := [("begin", JInt 100); ("end", JInt 109)] in
  let d' := [("end", JInt 109); ("begin", JInt 100)] in
  NoDup (map fst d) /\
  Permutation d d' /\
  validate (L := decimal_literals) Epoch (JObject d') =
  validate (L := decimal_literals) Epoch (JObject d).
Proof.
  intros d d'.
  assert (Hnd : NoDup (map fst d)).
  { constructor; [intros [H|[]]; discriminate H|].
    constructor; [intros []|]. constructor. }
  assert (Hp : Permutation d d') by apply perm_swap.
  split; [exact Hnd | split; [exact Hp|]].
  exact (validate_order_independent (L := decimal_literals) "Epoch" (model_fields Epoch)
           d d' Hnd Hp).
Defined.

Lemma explicit_null_same_as_absent_witness :
  let d1 := [("begin", JInt 100)] in
  let d2 := [("end", JInt 109)] in
  (forall f, In f (model_fields Epoch) -> field_name f = "epochId" ->
     field_default f = Some VNone /\ exists t, field_type f = Optional t) /\
  dict_get "epochId" (d1 ++ d2) = None /\
  validate (L := decimal_literals) Epoch (JObject (d1 ++ ("epochId", JNull) :: d2)) =
  validate (L := decimal_literals) Epoch (JObject (d1 ++ d2)).
Proof.
  intros d1 d2.
  assert (Hopt : forall f, In f (model_fields Epoch) -> field_name f = "epochId" ->
            field_default f = Some VNone /\ exists t, field_type f = Optional t).
  { intros f [<-|[<-|[<-|[]]]] H; try discriminate H.
    split; [reflexivity | exists Int; reflexivity]. }
  split; [exact Hopt | split; [reflexivity|]].
  exact (explicit_null_same_as_absent (L := decimal_literals) "Epoch" (model_fields Epoch)
           d1 d2 "epochId" Hopt eq_refl).
Defined.
